(** * SocialStudy: the Pomodoro timer of [src/pages/Timer.tsx]

    A shallow embedding of the [Timer] component: its React state, the
    [focusStartRef] ref, the handlers [toggle], [reset], [startPhase] and
    [handlePhaseEnd], the interval callback, the key listener, the inputs
    of the configuration, the delayed auto-start and the derived
    [todayCount].

    Modelling conventions.
    - A handler invocation is one atomic transition.  Inside a handler the
      identifiers [phase], [running], [intervalCount], [workMin] and so on
      denote the values of the render the handler was created in; the state
      setters issued by the handler are applied together, in program order.
    - The buttons call the handlers of the current render.  The key
      listener and the interval are installed by effects that are re-run
      only when [running] or [phase] change: they keep the handlers of the
      render in which that last happened.  Every change of [intervalCount]
      comes with such a change, so in those handlers [phase], [running] and
      [intervalCount] are the current values; the inputs may have been
      edited since, and the state keeps the configuration those handlers
      see ([captured]) beside the current one ([config]).
    - [handlePhaseEnd] is [async]; its two [await]s (the user lookup and the
      insert) are taken to resolve before the next event is handled.
    - React calls a function given to a state setter when it next renders
      the component, or at once, at dispatch, when the component has no
      update pending.  Which of the two happens depends on React's
      bookkeeping, not on the state modelled here, so every event that
      dispatches such a function says when it is called ([Call]).
      - The function given to [setHistory] reads [focusStartRef.current],
        and [handlePhaseEnd] clears the ref right after queueing it.
        Called at render it reads [null] and throws; the application has no
        error boundary, so React unmounts the page and the state updates of
        that batch are never shown.
      - The function the interval gives to [setRemaining] calls
        [handlePhaseEnd] and returns 0.  When [handlePhaseEnd] sets the
        state without waiting (no focus start to record), the [0] is applied
        before its [setRemaining] if the function is called at render, and
        after it if the function is called at dispatch.
    - The arrow function given to [setTimeout] closes over the [phase] and
      the [startPhase] of the render in which [handlePhaseEnd] ran, that is
      the phase that has just ended.  The model keeps that captured phase
      with each pending timeout.
    - Wall-clock time, the signed-in user and the rows sent to the
      [study_sessions] table are part of the modelled world.
    - The behaviour is that of a production build: the second invocation of
      updater functions that React's strict mode performs in development is
      not modelled. *)

From Stdlib Require Import ZArith String Ascii Bool Lia DecimalString List.
From Stdlib Require DecimalPos.
Import ListNotations.
Open Scope Z_scope.

(** ** The pieces of the JavaScript standard library the component calls *)
Module JS.

(** A [Date] is its time value: milliseconds since the epoch, UTC. *)
Definition Date := Z.

Definition msPerDay : Z := 86400000.

Definition digit (n : Z) : ascii := ascii_of_nat (48 + Z.to_nat (n mod 10)).

(** [String(n).padStart(w, '0')] for [0 <= n < 10^w]. *)
Fixpoint padStart0 (w : nat) (n : Z) : string :=
  match w with
  | O => EmptyString
  | S w' => padStart0 w' (n / 10) ++ String (digit n) EmptyString
  end%string.

(** [String(n)] for an integer [n]. *)
Definition String_of (n : Z) : string := NilZero.string_of_int (Z.to_int n).

(** [s.padStart(w, '0')]: zeros in front until [s] is [w] characters long. *)
Fixpoint zeros (n : nat) : string :=
  match n with
  | O => EmptyString
  | S n' => String "0" (zeros n')
  end.

Definition padStart (w : nat) (s : string) : string :=
  (zeros (w - String.length s) ++ s)%string.

(** Year, month and day of the UTC calendar date that lies [days] days
    after 1970-01-01 (proleptic Gregorian calendar). *)
Definition civil (days : Z) : Z * Z * Z :=
  let z := days + 719468 in
  let era := z / 146097 in
  let doe := z - era * 146097 in
  let yoe := (doe - doe / 1460 + doe / 36524 - doe / 146096) / 365 in
  let doy := doe - (365 * yoe + yoe / 4 - yoe / 100) in
  let mp := (5 * doy + 2) / 153 in
  let d := doy - (153 * mp + 2) / 5 + 1 in
  let m := if mp <? 10 then mp + 3 else mp - 9 in
  let y := yoe + era * 400 + (if m <=? 2 then 1 else 0) in
  (y, m, d).

(** The year of an ISO rendering: four digits for the years 0 to 9999,
    otherwise the expanded form, a sign and at least six digits. *)
Definition isoYear (y : Z) : string :=
  if (0 <=? y) && (y <=? 9999) then padStart0 4 y
  else ((if (y <? 0)%Z then "-" else "+") ++ padStart 6 (String_of (Z.abs y)))%string.

(** [Date.prototype.toISOString]: [YYYY-MM-DDTHH:mm:ss.sssZ], always in
    UTC.  (A [Date] made by [new Date()] is a valid one, so the
    [RangeError] of invalid dates does not arise.) *)
Definition toISOString (t : Date) : string :=
  let '(y, m, d) := civil (t / msPerDay) in
  let ms := t mod msPerDay in
  (isoYear y ++ "-" ++ padStart0 2 m ++ "-" ++ padStart0 2 d ++ "T"
   ++ padStart0 2 (ms / 3600000) ++ ":" ++ padStart0 2 (ms / 60000 mod 60)
   ++ ":" ++ padStart0 2 (ms / 1000 mod 60) ++ "." ++ padStart0 3 (ms mod 1000)
   ++ "Z")%string.

(** [s.split(c)[0]]: the part of [s] before the first [c], all of [s]
    when [c] does not occur. *)
Fixpoint split0 (c : ascii) (s : string) : string :=
  match s with
  | EmptyString => EmptyString
  | String a s' => if Ascii.eqb a c then EmptyString else String a (split0 c s')
  end.

(** [a % b] on integers: [None] stands for [NaN] (a zero divisor);
    otherwise the remainder has the sign of the dividend. *)
Definition rem (a b : Z) : option Z :=
  if b =? 0 then None else Some (Z.rem a b).

(** The calendar day (days since the epoch) on which the instant [t] falls
    for a clock that is [offsetMin] minutes ahead of UTC. *)
Definition localDay (offsetMin : Z) (t : Date) : Z :=
  (t + offsetMin * 60000) / msPerDay.

(** The decimal numeral a field of digits denotes ([None] when a character
    is not a digit); leading zeros do not count. *)
Definition readNat (s : string) : option Z :=
  option_map Z.of_uint (NilEmpty.uint_of_string s).

(** [Number.MAX_SAFE_INTEGER], and the integers every one of which a
    [number] holds exactly: on them the division, [%] and [Math.floor] of
    doubles are those of the integers. *)
Definition MAX_SAFE_INTEGER : Z := 2 ^ 53 - 1.

Definition isSafeInteger (n : Z) : bool :=
  (- MAX_SAFE_INTEGER <=? n) && (n <=? MAX_SAFE_INTEGER).

End JS.

(** ** The component *)
Module Timer.

Inductive Phase := idle | focus | short | long.

Definition Phase_eqb (p q : Phase) : bool :=
  match p, q with
  | idle, idle | focus, focus | short, short | long, long => true
  | _, _ => false
  end.

(** [type Session = { id: string; start_at: string; end_at: string | null }] *)
Record Session := mkSession {
  id : string;
  start_at : string;
  end_at : option string
}.

(** The object handed to [supabase.from('study_sessions').insert]. *)
Record Row := mkRow {
  user_id : string;
  row_start_at : string;
  row_end_at : string
}.

(** The configurable durations (minutes) and the cycle length. *)
Record Config := mkConfig {
  workMin : Z;
  shortMin : Z;
  longMin : Z;
  intervalsBeforeLong : Z
}.

(** The initial values of the four inputs: 25, 5 and 15 minutes, 4
    intervals. *)
Definition defaults : Config := mkConfig 25 5 15 4.

(** When React calls a function given to a state setter. *)
Inductive Call :=
| atRender      (* when the component is next rendered *)
| atDispatch.   (* at once: the component had no update pending *)

(** The [useState] cells and the ref of the component, the part of the
    world the handlers read and write, and what React keeps of the
    component. *)
Record State := mkState {
  phase : Phase;
  remaining : Z;                    (* seconds *)
  intervalCount : Z;
  running : bool;
  history : list Session;
  focusStartRef : option JS.Date;   (* [focusStartRef.current] *)
  clock : JS.Date;                  (* what [new Date()] reads *)
  authUser : option string;         (* id of the signed-in user, if any *)
  inserted : list Row;              (* rows sent to the table, newest first *)
  timeouts : list Phase;            (* pending auto-start callbacks, oldest
                                       first, each with its captured phase *)
  config : Config;                  (* the cells of the four inputs *)
  captured : Config;                (* the inputs as the key listener and
                                       the interval see them *)
  mounted : bool                    (* the component is on the page *)
}.

Definition setPhase (p : Phase) (s : State) : State :=
  mkState p (remaining s) (intervalCount s) (running s) (history s)
          (focusStartRef s) (clock s) (authUser s) (inserted s) (timeouts s)
          (config s) (captured s) (mounted s).

Definition setRemaining (r : Z) (s : State) : State :=
  mkState (phase s) r (intervalCount s) (running s) (history s)
          (focusStartRef s) (clock s) (authUser s) (inserted s) (timeouts s)
          (config s) (captured s) (mounted s).

Definition setIntervalCount (n : Z) (s : State) : State :=
  mkState (phase s) (remaining s) n (running s) (history s) (focusStartRef s)
          (clock s) (authUser s) (inserted s) (timeouts s) (config s)
          (captured s) (mounted s).

Definition setRunning (b : bool) (s : State) : State :=
  mkState (phase s) (remaining s) (intervalCount s) b (history s)
          (focusStartRef s) (clock s) (authUser s) (inserted s) (timeouts s)
          (config s) (captured s) (mounted s).

Definition setHistory (h : list Session) (s : State) : State :=
  mkState (phase s) (remaining s) (intervalCount s) (running s) h
          (focusStartRef s) (clock s) (authUser s) (inserted s) (timeouts s)
          (config s) (captured s) (mounted s).

Definition setFocusStart (d : option JS.Date) (s : State) : State :=
  mkState (phase s) (remaining s) (intervalCount s) (running s) (history s) d
          (clock s) (authUser s) (inserted s) (timeouts s) (config s)
          (captured s) (mounted s).

Definition setClock (t : JS.Date) (s : State) : State :=
  mkState (phase s) (remaining s) (intervalCount s) (running s) (history s)
          (focusStartRef s) t (authUser s) (inserted s) (timeouts s)
          (config s) (captured s) (mounted s).

Definition setAuthUser (u : option string) (s : State) : State :=
  mkState (phase s) (remaining s) (intervalCount s) (running s) (history s)
          (focusStartRef s) (clock s) u (inserted s) (timeouts s) (config s)
          (captured s) (mounted s).

(** [supabase.from('study_sessions').insert(row)]: the request is issued;
    an error reply only raises a toast. *)
Definition insert (r : Row) (s : State) : State :=
  mkState (phase s) (remaining s) (intervalCount s) (running s) (history s)
          (focusStartRef s) (clock s) (authUser s) (r :: inserted s)
          (timeouts s) (config s) (captured s) (mounted s).

(** [setTimeout(cb, 1000)] where [cb] captured the phase [p]. *)
Definition setTimeout (p : Phase) (s : State) : State :=
  mkState (phase s) (remaining s) (intervalCount s) (running s) (history s)
          (focusStartRef s) (clock s) (authUser s) (inserted s)
          (timeouts s ++ [p]) (config s) (captured s) (mounted s).

Definition dropTimeout (s : State) : State :=
  mkState (phase s) (remaining s) (intervalCount s) (running s) (history s)
          (focusStartRef s) (clock s) (authUser s) (inserted s)
          (tl (timeouts s)) (config s) (captured s) (mounted s).

(** The cells of the four inputs, taken together. *)
Definition setConfig (c : Config) (s : State) : State :=
  mkState (phase s) (remaining s) (intervalCount s) (running s) (history s)
          (focusStartRef s) (clock s) (authUser s) (inserted s) (timeouts s) c
          (captured s) (mounted s).

(** The effects install a key listener and an interval that see [c]. *)
Definition setCaptured (c : Config) (s : State) : State :=
  mkState (phase s) (remaining s) (intervalCount s) (running s) (history s)
          (focusStartRef s) (clock s) (authUser s) (inserted s) (timeouts s)
          (config s) c (mounted s).

(** React removes the component from the page. *)
Definition unmount (s : State) : State :=
  mkState (phase s) (remaining s) (intervalCount s) (running s) (history s)
          (focusStartRef s) (clock s) (authUser s) (inserted s) (timeouts s)
          (config s) (captured s) false.

(** [getUserOrWarn]: the signed-in user, or [null] after a warning toast. *)
Definition getUserOrWarn (s : State) : option string := authUser s.

(** What the mount effect stores: nothing without a user, otherwise the
    reply to the query, which asks for at most ten rows
    ([rows]: the user's sessions, latest start first). *)
Definition loadHistory (u : option string) (rows : list Session) : list Session :=
  match u with
  | None => []
  | Some _ => firstn 10 rows
  end.

(** An idle, stopped timer whose inputs hold [cfg], the key listener and
    the interval seeing the same. *)
Definition configured (cfg : Config) (t0 : JS.Date) (u : option string)
    (rows : list Session) : State :=
  mkState idle 0 0 false (loadHistory u rows) None t0 u [] [] cfg cfg true.

(** The component after mounting at time [t0]. *)
Definition init (t0 : JS.Date) (u : option string) (rows : list Session) : State :=
  configured defaults t0 u rows.

(** The minutes and cycle-length inputs store [parseInt(value) || 1];
    [parsed] is what [parseInt] returned, [None] for [NaN]. *)
Definition orOne (parsed : option Z) : Z :=
  match parsed with
  | None => 1
  | Some 0 => 1
  | Some n => n
  end.

Definition setWorkMin (v : Z) (cfg : Config) : Config :=
  mkConfig v (shortMin cfg) (longMin cfg) (intervalsBeforeLong cfg).

Definition setShortMin (v : Z) (cfg : Config) : Config :=
  mkConfig (workMin cfg) v (longMin cfg) (intervalsBeforeLong cfg).

Definition setLongMin (v : Z) (cfg : Config) : Config :=
  mkConfig (workMin cfg) (shortMin cfg) v (intervalsBeforeLong cfg).

Definition setIntervalsBeforeLong (v : Z) (cfg : Config) : Config :=
  mkConfig (workMin cfg) (shortMin cfg) (longMin cfg) v.

(** The four inputs. *)
Inductive Input := focusInput | shortInput | longInput | intervalsInput.

(** [onChange] of an input. *)
Definition edit (i : Input) (parsed : option Z) (cfg : Config) : Config :=
  match i with
  | focusInput => setWorkMin (orOne parsed) cfg
  | shortInput => setShortMin (orOne parsed) cfg
  | longInput => setLongMin (orOne parsed) cfg
  | intervalsInput => setIntervalsBeforeLong (orOne parsed) cfg
  end.

Section Handlers.

(** The configuration of the render the handlers were created in. *)
Variable cfg : Config.

(** Seconds a phase lasts, as the handlers compute them. *)
Definition duration (p : Phase) : Z :=
  match p with
  | idle => 0
  | focus => workMin cfg * 60
  | short => shortMin cfg * 60
  | long => longMin cfg * 60
  end.

(** The break that follows the [n]-th completed focus interval. *)
Definition breakAfter (n : Z) : Phase :=
  match JS.rem n (intervalsBeforeLong cfg) with
  | Some 0 => long
  | _ => short
  end.

(** [handlePhaseEnd] reaches its first [await] before it sets any state:
    a focus phase with a stored start is ending. *)
Definition awaits (s : State) : bool :=
  match phase s, focusStartRef s with
  | focus, Some _ => true
  | _, _ => false
  end.

(** The function given to [setHistory] is queued and will be called at
    render, when [focusStartRef.current] is [null]: it throws. *)
Definition throws (h : Call) (s : State) : bool :=
  match h, phase s, focusStartRef s, getUserOrWarn s with
  | atRender, focus, Some _, Some _ => true
  | _, _, _, _ => false
  end.

(** [handlePhaseEnd]: record a finished focus period, stop, move to the
    next phase and schedule the auto-start.  [h] says when React calls the
    function given to [setHistory]. *)
Definition handlePhaseEnd (h : Call) (s : State) : State :=
  let s1 :=
    match phase s, focusStartRef s with
    | focus, Some start =>
        let s' :=
          match getUserOrWarn s with
          | Some user =>
              let endAt := clock s in
              let s'' := insert (mkRow user (JS.toISOString start)
                                       (JS.toISOString endAt)) s in
              match h with
              | atDispatch =>
                  setHistory
                    (firstn 10 (mkSession (JS.String_of (clock s))
                                          (JS.toISOString start)
                                          (Some (JS.toISOString endAt))
                                :: history s'')) s''
              | atRender => s''
              end
          | None => s
          end in
        setFocusStart None s'
    | _, _ => s
    end in
  if throws h s then
    (* The setters below are called and the timeout is set, but the render
       that would show their values calls the queued function first. *)
    unmount (setTimeout (phase s) s1)
  else
    let s2 := setRunning false s1 in
    let s3 :=
      match phase s with
      | focus =>
          let nextInterval := intervalCount s + 1 in
          let s2' := setIntervalCount nextInterval s2 in
          match breakAfter nextInterval with
          | long => setRemaining (longMin cfg * 60) (setPhase long s2')
          | _ => setRemaining (shortMin cfg * 60) (setPhase short s2')
          end
      | short | long => setRemaining (workMin cfg * 60) (setPhase focus s2)
      | idle => setRemaining 0 (setPhase idle s2)
      end in
    setTimeout (phase s) s3.

(** [startPhase] as seen from a closure in which [phase] is [p]. *)
Definition startPhase (p : Phase) (s : State) : State :=
  let s1 :=
    match p with
    | idle => setFocusStart (Some (clock s))
                (setRemaining (workMin cfg * 60) (setPhase focus s))
    | focus => setFocusStart (Some (clock s)) s
    | _ => s
    end in
  setRunning true s1.

(** The callback of the oldest pending timeout fires:
    [if (phase !== 'idle') startPhase()] with the captured phase. *)
Definition fireTimeout (s : State) : State :=
  match timeouts s with
  | [] => s
  | p :: _ =>
      let s' := dropTimeout s in
      if Phase_eqb p idle then s' else startPhase p s'
  end.

(** [toggle]: pause when running, otherwise start a cycle or resume. *)
Definition toggle (s : State) : State :=
  if running s then setRunning false s
  else
    let s1 :=
      match phase s with
      | idle => setFocusStart (Some (clock s))
                  (setRemaining (workMin cfg * 60)
                     (setPhase focus (setIntervalCount 0 s)))
      | focus => setFocusStart (Some (clock s)) s
      | _ => s
      end in
    setRunning true s1.

Definition reset (s : State) : State :=
  setFocusStart None
    (setIntervalCount 0 (setRemaining 0 (setPhase idle (setRunning false s)))).

(** The interval callback; an interval exists only while [running].  [r]
    says when React calls the function given to [setRemaining], [h] the one
    [handlePhaseEnd] gives to [setHistory]. *)
Definition tick (r h : Call) (s : State) : State :=
  if running s then
    if remaining s <=? 1 then
      let s' := handlePhaseEnd h (setRemaining 0 s) in
      match r with
      | atRender => s'
      | atDispatch => if awaits s then s' else setRemaining 0 s'
      end
    else setRemaining (remaining s - 1) s
  else s.

(** The Next button (rendered only while running) and the N key. *)
Definition next (h : Call) (s : State) : State :=
  if running s then handlePhaseEnd h s else s.

End Handlers.

(** What can happen to the page. *)
Inductive Event :=
| Toggle                      (* the Start/Pause/Resume button *)
| Space                       (* the Space key *)
| Next (h : Call)             (* the Next button *)
| KeyN (h : Call)             (* the N key *)
| Reset                       (* the Reset button *)
| Tick (r h : Call)           (* the interval fires *)
| Timeout                     (* the oldest pending timeout fires *)
| Edit (i : Input) (parsed : option Z)   (* an input is edited *)
| Elapse (ms : N)             (* time passes *)
| Auth (u : option string).   (* the user signs in or out *)

Definition isEdit (e : Event) : bool :=
  match e with
  | Edit _ _ => true
  | _ => false
  end.

(** The handler an event runs on the mounted component.  The callback of
    a timeout belongs to the render in which [handlePhaseEnd] ran; it reads
    the configuration only in the [idle] branch of [startPhase], which its
    guard excludes. *)
Definition handle (s : State) (e : Event) : State :=
  match e with
  | Toggle => toggle (config s) s
  | Space => toggle (captured s) s
  | Next h => next (config s) h s
  | KeyN h => next (captured s) h s
  | Reset => reset s
  | Tick r h => tick (captured s) r h s
  | Timeout => fireTimeout (captured s) s
  | Edit i parsed => setConfig (edit i parsed (config s)) s
  | Elapse ms => setClock (clock s + Z.of_N ms) s
  | Auth u => setAuthUser u s
  end.

(** The effects with dependencies [[running, phase]]: when one of the two
    has changed from [s] to [s'], the key listener and the interval are
    installed anew, with the handlers of the new render. *)
Definition rerun (s s' : State) : State :=
  if Bool.eqb (running s) (running s') && Phase_eqb (phase s) (phase s')
  then s'
  else setCaptured (config s') s'.

(** What an event still does once the component is unmounted: the
    listeners, the buttons and the interval are gone with it; a pending
    timeout still fires, and of what its callback does the write to the ref
    remains, React ignoring the state setter. *)
Definition aftermath (s : State) (e : Event) : State :=
  match e with
  | Timeout =>
      match timeouts s with
      | [] => s
      | p :: _ =>
          let s' := dropTimeout s in
          match p with
          | focus => setFocusStart (Some (clock s)) s'
          | _ => s'
          end
      end
  | Elapse ms => setClock (clock s + Z.of_N ms) s
  | Auth u => setAuthUser u s
  | _ => s
  end.

Definition step (s : State) (e : Event) : State :=
  if mounted s then
    let s' := handle s e in
    if mounted s' then rerun s s' else s'
  else aftermath s e.

Definition run (s : State) (es : list Event) : State := fold_left step es s.

(** States the page can be in. *)
Inductive visited : State -> Prop :=
| visit_start cfg t0 u rows : visited (configured cfg t0 u rows)
| visit_step s e : visited s -> visited (step s e).

(** States the page can be in while the inputs hold [cfg] and are left
    alone. *)
Inductive reachable (cfg : Config) : State -> Prop :=
| reach_init t0 u rows : reachable cfg (configured cfg t0 u rows)
| reach_step s e : reachable cfg s -> isEdit e = false -> reachable cfg (step s e).

(** [todayCount]: sessions of [history] whose [end_at] carries the date
    of [today], the [Date] read when the memo was last computed. *)
Definition endsOn (todayStr : string) (sess : Session) : bool :=
  match end_at sess with
  | None => false
  | Some EmptyString => false
  | Some e => String.eqb (JS.split0 "T" e) todayStr
  end.

Definition todayCount (today : JS.Date) (history : list Session) : nat :=
  let todayStr := JS.split0 "T" (JS.toISOString today) in
  length (filter (endsOn todayStr) history).

(** [fmt]: seconds as [MM:SS], with the hours in front once there are any
    (integer [secs]). *)
Definition fmt (secs : Z) : string :=
  let s := Z.rem secs 60 in
  let m := Z.rem (secs / 60) 60 in
  let h := secs / 3600 in
  ((if (0 <? h)%Z then JS.padStart 2 (JS.String_of h) ++ ":" else EmptyString)
   ++ JS.padStart 2 (JS.String_of m) ++ ":" ++ JS.padStart 2 (JS.String_of s))%string.

(** U+2014, the dash of the empty tiles, in UTF-8. *)
Definition emDash : string :=
  String (ascii_of_nat 226) (String (ascii_of_nat 128)
    (String (ascii_of_nat 148) EmptyString)).

(** The "Next Break" tile. *)
Definition nextBreakTile (cfg : Config) (s : State) : string :=
  match phase s with
  | idle => emDash
  | focus =>
      match JS.rem (intervalCount s + 1)%Z (intervalsBeforeLong cfg) with
      | Some 0%Z => "Long"
      | _ => "Short"
      end
  | _ => emDash
  end%string.

(** The "Cycle" tile; [NaN] is what a zero cycle length prints. *)
Definition cycleTile (cfg : Config) (s : State) : string :=
  match phase s with
  | idle => "0/4"
  | p =>
      (match JS.rem (intervalCount s) (intervalsBeforeLong cfg) with
       | Some r => JS.String_of (r + (if Phase_eqb p focus then 1 else 0))%Z
       | None => "NaN"
       end ++ "/" ++ JS.String_of (intervalsBeforeLong cfg))
  end%string.

End Timer.

(** ** [src/lib/utils.ts] *)
Module Utils.

(** [fmtDuration]: milliseconds as [HH:MM:SS].  The embedding covers the
    safe integers, where the arithmetic of the code is exact; [None] is any
    other argument. *)
Definition fmtDuration (ms : Z) : option string :=
  if JS.isSafeInteger ms then
    let sec := ms / 1000 in
    let h := sec / 3600 in
    let m := Z.rem sec 3600 / 60 in
    let s := Z.rem sec 60 in
    Some (String.concat ":" (map (fun x => JS.padStart 2 (JS.String_of x)) [h; m; s]))
  else None.

End Utils.

Import Timer.

(** ** Schedules and observations used in the statements *)

(** A [SessionConfig] as the timer page accepts it. *)
Record ValidConfig (cfg : Config) : Prop := {
  work_pos : 0 < workMin cfg;
  short_pos : 0 < shortMin cfg;
  long_pos : 0 < longMin cfg;
  intervals_pos : 1 <= intervalsBeforeLong cfg
}.

(** The event [e] ends a focus phase in state [s]: the page is mounted
    and the phase is skipped, or the interval fires with at most one second
    left. *)
Definition completesFocus (s : State) (e : Event) : bool :=
  mounted s &&
  match e with
  | Next _ | KeyN _ => Phase_eqb (phase s) focus && running s
  | Tick _ _ => Phase_eqb (phase s) focus && running s && (remaining s <=? 1)
  | _ => false
  end.

(** The event [e] ends the phase of state [s], whatever the phase. *)
Definition endsPhase (s : State) (e : Event) : bool :=
  mounted s &&
  match e with
  | Next _ | KeyN _ => running s
  | Tick _ _ => running s && (remaining s <=? 1)
  | _ => false
  end.

(** When React calls the function that the [handlePhaseEnd] of the event
    gives to [setHistory]. *)
Definition historyCall (e : Event) : Call :=
  match e with
  | Next h | KeyN h | Tick _ h => h
  | _ => atRender
  end.

(** The configuration the handler of an event sees: the current one for
    a button, the captured one for a key, the interval and a timeout. *)
Definition handlerConfig (s : State) (e : Event) : Config :=
  match e with
  | Toggle | Next _ => config s
  | _ => captured s
  end.

(** The phase end leaves 0 seconds behind: the interval's function is
    called at dispatch and [handlePhaseEnd] sets the state without
    waiting. *)
Definition endsAtZero (s : State) (e : Event) : bool :=
  match e with
  | Tick atDispatch _ => negb (awaits s)
  | _ => false
  end.

(** The state a phase end starts from: the state itself, or the state
    with 0 seconds left when the interval ends the phase. *)
Definition atEnd (s : State) (e : Event) : State :=
  match e with
  | Tick _ _ => setRemaining 0 s
  | _ => s
  end.

(** One second of a running timer: a second passes, the interval fires,
    React calling the queued functions at render. *)
Definition second : list Event := [Elapse 1000; Tick atRender atRender].

Definition seconds (n : nat) : list Event := concat (repeat second n).

(** Let the current phase run out: one tick for each remaining second. *)
Definition expire (s : State) : State :=
  run s (seconds (Z.to_nat (remaining s))).

(** The auto-start fires one second after the phase has ended. *)
Definition autostart (s : State) : State :=
  run s [Elapse 1000; Timeout].

(** The states in which the next [k] phases begin, when every phase is
    left to run out and to auto-start the following one. *)
Fixpoint expiries (k : nat) (s : State) : list State :=
  match k with
  | O => []
  | S k' => let s' := expire s in s' :: expiries k' (autostart s')
  end.

(** The state in which the [k]-th next phase has been auto-started, every
    phase in between having been left to run out. *)
Fixpoint after (k : nat) (s : State) : State :=
  match k with
  | O => s
  | S k' => after k' (autostart (expire s))
  end.

(** What the page shows of a state: the phase and the seconds left. *)
Definition shown (s : State) : Phase * Z := (phase s, remaining s).

(** The cells of the component a phase transition writes. *)
Definition cells (s : State) : Phase * Z * Z * bool * option JS.Date * list Phase :=
  (phase s, remaining s, intervalCount s, running s, focusStartRef s, timeouts s).

(** A signed-out visitor opens the page at time 0 and presses Space. *)
Definition started : State := step (init 0 None []) Space.

(** The same visitor pauses after three seconds and waits five more. *)
Definition pausedFocus : State :=
  run started [Elapse 3000; Space; Elapse 5000].

(** Noon of 2025-01-01, UTC. *)
Definition noon : JS.Date := 1735732800000.

(** A signed-in user opens the page at noon and presses Space. *)
Definition startedBy (u : string) : State :=
  step (init noon (Some u) []) Space.

(** A visitor opens the page at time 0 and types 10 into the focus
    minutes. *)
Definition typedTen : State := step (init 0 None []) (Edit focusInput (Some 10)).

(** 23:00 of 2025-01-01 and 01:00 of 2025-01-02, UTC: 18:00 and 20:00 of
    2025-01-01 on a clock five hours behind UTC. *)
Definition ended18 : JS.Date := 1735772400000.
Definition now20 : JS.Date := 1735779600000.

(** The page as that user opens it at [now20], the table holding one
    session that ran from 17:35 to 18:00 local time. *)
Definition reopened : State :=
  init now20 (Some "u"%string)
       [mkSession "7" (JS.toISOString (ended18 - 1500000))
                  (Some (JS.toISOString ended18))].

(** Eleven sessions of one user in the table, latest start first, each of
    25 minutes, the last of them ending at noon of 2025-01-01 and each
    other one half an hour before the next. *)
Definition elevenSessions : list Session :=
  map (fun k => mkSession (JS.String_of (11 - Z.of_nat k))
                          (JS.toISOString (noon - 1800000 * Z.of_nat k - 1500000))
                          (Some (JS.toISOString (noon - 1800000 * Z.of_nat k))))
      (seq 0 11).

(** The phase that follows phase [p] when [n] intervals are completed,
    and the count after [p] has ended. *)
Definition nextPhase (cfg : Config) (p : Phase) (n : Z) : Phase :=
  match p with
  | idle => idle
  | focus => breakAfter cfg (n + 1)
  | short | long => focus
  end.

Definition nextCount (p : Phase) (n : Z) : Z :=
  match p with
  | focus => n + 1
  | _ => n
  end.

(** A phase [p] has just been started with [n] intervals completed, on a
    page whose inputs hold [cfg] and have not been edited since the timer
    last started or stopped: the timer runs, the full duration is left and
    no auto-start is pending. *)
Record Started (cfg : Config) (p : Phase) (n : Z) (s : State) : Prop := {
  st_phase : phase s = p;
  st_remaining : remaining s = duration cfg p;
  st_count : intervalCount s = n;
  st_running : running s = true;
  st_timeouts : timeouts s = [];
  st_config : config s = cfg;
  st_captured : captured s = cfg;
  st_mounted : mounted s = true
}.

Definition Phase_eq_dec (p q : Phase) : {p = q} + {p <> q}.
Proof. decide equality. Defined.

(** The counter is never negative and is zero in [idle]; the history
    never holds more than ten sessions. *)
Record Inv (s : State) : Prop := {
  inv_count : 0 <= intervalCount s;
  inv_idle : phase s = idle -> intervalCount s = 0;
  inv_history : (length (history s) <= 10)%nat
}.


(** What the history list and the table record of a session: its start
    and its end. *)
Definition sessionTimes (sess : Session) : string * option string :=
  (start_at sess, end_at sess).

Definition rowTimes (r : Row) : string * option string :=
  (row_start_at r, Some (row_end_at r)).

(** The count is a multiple of the cycle length in a long break and is
    not in a short break. *)
Record InStep (cfg : Config) (s : State) : Prop := {
  is_long : phase s = long -> (intervalsBeforeLong cfg | intervalCount s);
  is_short : phase s = short -> ~ (intervalsBeforeLong cfg | intervalCount s)
}.

(** A step leaves history and table alone, or puts one session in front
    of the history (dropping what lies beyond the tenth place) and sends the
    row with the same start and end. *)
Definition Recorded (s s' : State) : Prop :=
  (history s' = history s /\ inserted s' = inserted s)
  \/ exists new row,
       history s' = firstn 10 (new :: history s)
       /\ inserted s' = row :: inserted s
       /\ sessionTimes new = rowTimes row.

(** A stored focus start is not in the future. *)
Definition Timely (s : State) : Prop :=
  forall t, focusStartRef s = Some t -> t <= clock s.

(** The last second of a running phase: the state the interval finds
    when it fires for the last time. *)
Definition lastSecond (s : State) : State :=
  setRemaining 1 (setClock (clock s + 1000 * remaining s) s).

(** ** The library functions on sample dates *)

Example toISOString_epoch : JS.toISOString 0 = "1970-01-01T00:00:00.000Z"%string.
Proof. reflexivity. Qed.

Example toISOString_2025 :
  JS.toISOString 1761827696789 = "2025-10-30T12:34:56.789Z"%string.
Proof. vm_compute. reflexivity. Qed.

Example toISOString_leap :
  JS.toISOString 1709251199999 = "2024-02-29T23:59:59.999Z"%string.
Proof. vm_compute. reflexivity. Qed.

Example toISOString_year_10000 :
  JS.toISOString 253402300800000 = "+010000-01-01T00:00:00.000Z"%string.
Proof. vm_compute. reflexivity. Qed.

Example toISOString_year_before_0 :
  JS.toISOString (-62198755200000) = "-000001-01-01T00:00:00.000Z"%string.
Proof. vm_compute. reflexivity. Qed.

(** ** The handlers, cell by cell *)

Lemma breakAfter_cases cfg n : breakAfter cfg n = long \/ breakAfter cfg n = short.
Proof.
  unfold breakAfter. destruct (JS.rem n (intervalsBeforeLong cfg)) as [[|q|q]|]; auto.
Qed.

Lemma firstn_10_length {A} (l : list A) : (length (firstn 10 l) <= 10)%nat.
Proof. rewrite length_firstn. apply Nat.le_min_l. Qed.

#[local] Arguments firstn : simpl never.
#[local] Arguments JS.toISOString : simpl never.
#[local] Arguments JS.String_of : simpl never.
#[local] Arguments Z.mul : simpl never.
#[local] Arguments Z.add : simpl never.
#[local] Arguments Z.sub : simpl never.

Lemma Phase_eqb_eq p q : Phase_eqb p q = true <-> p = q.
Proof. destruct p, q; cbn; split; congruence. Qed.

Lemma Phase_eqb_refl p : Phase_eqb p p = true.
Proof. now destruct p. Qed.

Lemma ValidConfig_defaults : ValidConfig defaults.
Proof. split; cbn; lia. Defined.

Section HandlerFacts.

Variable cfg : Config.

(** What [handlePhaseEnd] leaves in the cells of the timer when the
    render that follows goes through. *)
Lemma handlePhaseEnd_cells h s :
  throws h s = false ->
  phase (handlePhaseEnd cfg h s) = nextPhase cfg (phase s) (intervalCount s)
  /\ remaining (handlePhaseEnd cfg h s)
     = duration cfg (nextPhase cfg (phase s) (intervalCount s))
  /\ intervalCount (handlePhaseEnd cfg h s) = nextCount (phase s) (intervalCount s)
  /\ running (handlePhaseEnd cfg h s) = false
  /\ timeouts (handlePhaseEnd cfg h s) = timeouts s ++ [phase s]
  /\ mounted (handlePhaseEnd cfg h s) = mounted s.
Proof.
  intros Ht. unfold handlePhaseEnd. rewrite Ht. revert Ht.
  unfold throws, nextPhase, nextCount.
  destruct (phase s).
  - repeat split.
  - destruct (breakAfter_cases cfg (intervalCount s + 1)) as [E | E]; rewrite E;
      destruct h; destruct (focusStartRef s); destruct (getUserOrWarn s);
      intros Ht; try discriminate Ht; repeat split.
  - repeat split.
  - repeat split.
Qed.

(** What it leaves when the function given to [setHistory] throws. *)
Lemma handlePhaseEnd_thrown h s :
  throws h s = true ->
  mounted (handlePhaseEnd cfg h s) = false
  /\ phase (handlePhaseEnd cfg h s) = phase s
  /\ remaining (handlePhaseEnd cfg h s) = remaining s
  /\ intervalCount (handlePhaseEnd cfg h s) = intervalCount s
  /\ running (handlePhaseEnd cfg h s) = running s
  /\ history (handlePhaseEnd cfg h s) = history s
  /\ timeouts (handlePhaseEnd cfg h s) = timeouts s ++ [phase s].
Proof.
  intros Ht. unfold handlePhaseEnd. rewrite Ht. revert Ht. unfold throws.
  destruct h; [| discriminate].
  destruct (phase s) eqn:Ep; try discriminate.
  destruct (focusStartRef s); try discriminate.
  destruct (getUserOrWarn s); try discriminate.
  intros _. repeat split. exact Ep.
Qed.

Lemma throws_spec h s :
  throws h s = true <->
  h = atRender /\ phase s = focus /\ focusStartRef s <> None
  /\ getUserOrWarn s <> None.
Proof.
  unfold throws.
  destruct h, (phase s), (focusStartRef s), (getUserOrWarn s);
    split; try discriminate; try (intros (? & ? & ? & ?); congruence);
    intros _; repeat split; discriminate.
Qed.

Lemma handlePhaseEnd_mounted h s :
  mounted (handlePhaseEnd cfg h s) = mounted s && negb (throws h s).
Proof.
  destruct (throws h s) eqn:Ht.
  - destruct (handlePhaseEnd_thrown h s Ht) as (-> & _). now rewrite andb_false_r.
  - destruct (handlePhaseEnd_cells h s Ht) as (_ & _ & _ & _ & _ & ->).
    now rewrite andb_true_r.
Qed.

(** The rows [handlePhaseEnd] sends: one when a focus phase with a stored
    start ends for a signed-in user, none otherwise. *)
Lemma handlePhaseEnd_inserted h s :
  inserted (handlePhaseEnd cfg h s)
  = match phase s, focusStartRef s, getUserOrWarn s with
    | focus, Some start, Some user =>
        mkRow user (JS.toISOString start) (JS.toISOString (clock s)) :: inserted s
    | _, _, _ => inserted s
    end.
Proof.
  unfold handlePhaseEnd, throws. destruct (phase s); try (destruct h; reflexivity).
  destruct (breakAfter_cases cfg (intervalCount s + 1)) as [E | E]; rewrite E;
    destruct h; destruct (focusStartRef s); destruct (getUserOrWarn s); reflexivity.
Qed.

Lemma handlePhaseEnd_history h s :
  history (handlePhaseEnd cfg h s)
  = match h, phase s, focusStartRef s, getUserOrWarn s with
    | atDispatch, focus, Some start, Some user =>
        firstn 10 (mkSession (JS.String_of (clock s)) (JS.toISOString start)
                             (Some (JS.toISOString (clock s)))
                   :: history s)
    | _, _, _, _ => history s
    end.
Proof.
  unfold handlePhaseEnd, throws. destruct (phase s); try (destruct h; reflexivity).
  destruct (breakAfter_cases cfg (intervalCount s + 1)) as [E | E]; rewrite E;
    destruct h; destruct (focusStartRef s); destruct (getUserOrWarn s); reflexivity.
Qed.

Lemma handlePhaseEnd_focusStart h s :
  focusStartRef (handlePhaseEnd cfg h s)
  = match phase s with focus => None | _ => focusStartRef s end.
Proof.
  unfold handlePhaseEnd, throws. destruct (phase s); try (destruct h; reflexivity).
  destruct (breakAfter_cases cfg (intervalCount s + 1)) as [E | E]; rewrite E;
    destruct h; destruct (focusStartRef s) eqn:F; destruct (getUserOrWarn s);
    cbn; rewrite ?F; reflexivity.
Qed.

Lemma handlePhaseEnd_world h s :
  clock (handlePhaseEnd cfg h s) = clock s
  /\ authUser (handlePhaseEnd cfg h s) = authUser s
  /\ config (handlePhaseEnd cfg h s) = config s
  /\ captured (handlePhaseEnd cfg h s) = captured s.
Proof.
  unfold handlePhaseEnd, throws.
  destruct (phase s); try (destruct h; repeat split);
  destruct (breakAfter_cases cfg (intervalCount s + 1)) as [E | E]; rewrite E;
    destruct (focusStartRef s); destruct (getUserOrWarn s); repeat split.
Qed.

(** Ending a focus phase adds one to the counter, unless the page is
    lost. *)
Lemma handlePhaseEnd_focus_count h s :
  phase s = focus ->
  intervalCount (handlePhaseEnd cfg h s)
  = if throws h s then intervalCount s else intervalCount s + 1.
Proof.
  intros Hp. destruct (throws h s) eqn:Ht.
  - now destruct (handlePhaseEnd_thrown h s Ht) as (_ & _ & _ & -> & _).
  - destruct (handlePhaseEnd_cells h s Ht) as (_ & _ & -> & _). now rewrite Hp.
Qed.

Lemma toggle_running s : running s = true -> toggle cfg s = setRunning false s.
Proof. intros H. unfold toggle. now rewrite H. Qed.

Lemma toggle_paused s :
  running s = false ->
  toggle cfg s =
  setRunning true
    match phase s with
    | idle => setFocusStart (Some (clock s))
                (setRemaining (workMin cfg * 60)
                   (setPhase focus (setIntervalCount 0 s)))
    | focus => setFocusStart (Some (clock s)) s
    | _ => s
    end.
Proof. intros H. unfold toggle. now rewrite H. Qed.

Lemma toggle_phase s :
  phase (toggle cfg s)
  = if running s then phase s
    else match phase s with idle => focus | p => p end.
Proof.
  unfold toggle. destruct (running s); [reflexivity |].
  destruct (phase s) eqn:E; cbn; rewrite ?E; reflexivity.
Qed.

Lemma toggle_intervalCount s :
  phase s <> idle -> intervalCount (toggle cfg s) = intervalCount s.
Proof.
  intros Hp. unfold toggle. destruct (running s); [reflexivity |].
  destruct (phase s); [congruence | | |]; reflexivity.
Qed.

(** What [toggle] never touches. *)
Lemma toggle_rest s :
  inserted (toggle cfg s) = inserted s
  /\ history (toggle cfg s) = history s
  /\ timeouts (toggle cfg s) = timeouts s
  /\ clock (toggle cfg s) = clock s
  /\ authUser (toggle cfg s) = authUser s
  /\ config (toggle cfg s) = config s
  /\ captured (toggle cfg s) = captured s
  /\ mounted (toggle cfg s) = mounted s.
Proof. unfold toggle. destruct (running s), (phase s); repeat split. Qed.

(** What a firing timeout never touches. *)
Lemma fireTimeout_rest s :
  phase (fireTimeout cfg s) = phase s
  /\ remaining (fireTimeout cfg s) = remaining s
  /\ intervalCount (fireTimeout cfg s) = intervalCount s
  /\ inserted (fireTimeout cfg s) = inserted s
  /\ history (fireTimeout cfg s) = history s
  /\ clock (fireTimeout cfg s) = clock s
  /\ authUser (fireTimeout cfg s) = authUser s
  /\ config (fireTimeout cfg s) = config s
  /\ captured (fireTimeout cfg s) = captured s
  /\ mounted (fireTimeout cfg s) = mounted s.
Proof.
  unfold fireTimeout. destruct (timeouts s) as [|p tos]; [repeat split |].
  destruct p; repeat split.
Qed.

(** A pending auto-start whose captured phase is not [idle] sets the
    timer running and leaves phase, seconds and count alone. *)
Lemma fireTimeout_cells s p tos :
  timeouts s = p :: tos -> p <> idle ->
  phase (fireTimeout cfg s) = phase s
  /\ remaining (fireTimeout cfg s) = remaining s
  /\ intervalCount (fireTimeout cfg s) = intervalCount s
  /\ running (fireTimeout cfg s) = true
  /\ timeouts (fireTimeout cfg s) = tos
  /\ focusStartRef (fireTimeout cfg s)
     = match p with focus => Some (clock s) | _ => focusStartRef s end.
Proof.
  intros Ht Hp. unfold fireTimeout. rewrite Ht.
  destruct p; [congruence | | |]; cbn; rewrite Ht; repeat split.
Qed.

(** The interval while more than one second is left, and while the timer
    is stopped. *)
Lemma tick_countdown r h s :
  running s = true -> 1 < remaining s ->
  tick cfg r h s = setRemaining (remaining s - 1) s.
Proof.
  intros Hr Hl. unfold tick. rewrite Hr.
  destruct (remaining s <=? 1) eqn:L; [apply Z.leb_le in L; lia | reflexivity].
Qed.


(** The interval at the end of a phase: [handlePhaseEnd], with 0 seconds
    in place of what it set when the interval's function was called at
    dispatch and [handlePhaseEnd] did not wait. *)
Lemma tick_end r h s :
  running s = true -> remaining s <= 1 ->
  tick cfg r h s
  = match r with
    | atRender => handlePhaseEnd cfg h (setRemaining 0 s)
    | atDispatch =>
        if awaits s then handlePhaseEnd cfg h (setRemaining 0 s)
        else setRemaining 0 (handlePhaseEnd cfg h (setRemaining 0 s))
    end.
Proof.
  intros Hr Hl. unfold tick. rewrite Hr.
  destruct (remaining s <=? 1) eqn:L; [reflexivity | apply Z.leb_gt in L; lia].
Qed.

(** Where the function given to [setHistory] throws, [handlePhaseEnd]
    waits. *)
Lemma throws_awaits h s : throws h s = true -> awaits s = true.
Proof.
  unfold throws, awaits.
  destruct h, (phase s), (focusStartRef s), (getUserOrWarn s); auto; discriminate.
Qed.

End HandlerFacts.

(** ** Steps of the page *)

Lemma setCaptured_eta s : setCaptured (captured s) s = s.
Proof. now destruct s. Qed.

(** A step of the mounted page is the handler of the event, followed by
    the effects, which at most renew what the key listener and the interval
    see. *)
Lemma step_mounted s e :
  mounted s = true ->
  exists c, step s e = setCaptured c (handle s e)
            /\ (c = captured (handle s e) \/ c = config (handle s e)).
Proof.
  intros Hm. unfold step. rewrite Hm. cbv zeta.
  destruct (mounted (handle s e)).
  - unfold rerun.
    destruct (Bool.eqb (running s) (running (handle s e))
              && Phase_eqb (phase s) (phase (handle s e))).
    + exists (captured (handle s e)). split; [now rewrite setCaptured_eta | now left].
    + exists (config (handle s e)). split; [reflexivity | now right].
  - exists (captured (handle s e)). split; [now rewrite setCaptured_eta | now left].
Qed.

Lemma step_unmounted s e : mounted s = false -> step s e = aftermath s e.
Proof. intros Hm. unfold step. now rewrite Hm. Qed.

(** A step that changes neither [running] nor [phase] is the handler
    alone. *)
Lemma step_quiet s e :
  mounted s = true ->
  running (handle s e) = running s -> phase (handle s e) = phase s ->
  step s e = handle s e.
Proof.
  intros Hm Hr Hp. unfold step, rerun. rewrite Hm. cbv zeta.
  rewrite Hr, Hp, Bool.eqb_reflx, Phase_eqb_refl.
  now destruct (mounted (handle s e)).
Qed.

(** A step that changes [running] or [phase] and leaves the page mounted
    renews what the key listener and the interval see. *)
Lemma step_renewed s e :
  mounted s = true -> mounted (handle s e) = true ->
  running (handle s e) <> running s \/ phase (handle s e) <> phase s ->
  step s e = setCaptured (config (handle s e)) (handle s e).
Proof.
  intros Hm Hm' Hd. unfold step, rerun. rewrite Hm, Hm'. cbv zeta.
  destruct (Bool.eqb (running s) (running (handle s e))) eqn:Er;
    [| reflexivity].
  destruct (Phase_eqb (phase s) (phase (handle s e))) eqn:Ep; [| reflexivity].
  apply Bool.eqb_prop in Er. apply Phase_eqb_eq in Ep.
  destruct Hd as [Hd | Hd]; exfalso; apply Hd; congruence.
Qed.

(** The unmounted page stays unmounted, and keeps its cells. *)
Lemma aftermath_cells s e :
  phase (aftermath s e) = phase s
  /\ remaining (aftermath s e) = remaining s
  /\ intervalCount (aftermath s e) = intervalCount s
  /\ running (aftermath s e) = running s
  /\ history (aftermath s e) = history s
  /\ inserted (aftermath s e) = inserted s
  /\ config (aftermath s e) = config s
  /\ captured (aftermath s e) = captured s
  /\ mounted (aftermath s e) = mounted s.
Proof.
  destruct e; cbn [aftermath]; try (repeat split; fail).
  destruct (timeouts s) as [|p tos]; [repeat split |]. destruct p; repeat split.
Qed.

Lemma mounted_step s e : mounted (step s e) = true -> mounted s = true.
Proof.
  destruct (mounted s) eqn:Hm; [reflexivity |].
  rewrite step_unmounted by exact Hm.
  destruct (aftermath_cells s e) as (_ & _ & _ & _ & _ & _ & _ & _ & ->).
  now rewrite Hm.
Qed.

Lemma run_app s es es' : run s (es ++ es') = run (run s es) es'.
Proof. apply fold_left_app. Qed.

Lemma mounted_run es : forall s, mounted (run s es) = true -> mounted s = true.
Proof.
  induction es as [|e es IH]; intros s H; [exact H |].
  cbn [run fold_left] in H. apply IH in H. now apply mounted_step in H.
Qed.

Lemma visited_run s es : visited s -> visited (run s es).
Proof.
  revert s. induction es as [|e es IH]; intros s H; cbn; auto.
  apply IH. now constructor.
Qed.

Lemma reachable_visited cfg s : reachable cfg s -> visited s.
Proof. induction 1; now constructor. Qed.

Lemma reachable_run cfg s es :
  reachable cfg s -> forallb (fun e => negb (isEdit e)) es = true ->
  reachable cfg (run s es).
Proof.
  revert s. induction es as [|e es IH]; intros s H Hes; cbn; auto.
  cbn in Hes. apply andb_true_iff in Hes as [He Hes].
  apply IH; [| exact Hes]. constructor; [exact H |].
  now destruct (isEdit e).
Qed.

(** While the inputs are left alone, the key listener and the interval
    see what the inputs hold. *)
Lemma reachable_config cfg s :
  reachable cfg s -> config s = cfg /\ captured s = cfg.
Proof.
  induction 1 as [| s e Hr [IHc IHk] He]; [now split |].
  destruct (mounted s) eqn:Hm.
  - destruct (step_mounted s e Hm) as (c & -> & Hc).
    assert (Hcfg : config (handle s e) = cfg /\ captured (handle s e) = cfg).
    { destruct e; cbn [handle]; try discriminate He.
      + destruct (toggle_rest (config s) s) as (_ & _ & _ & _ & _ & -> & -> & _).
        now split.
      + destruct (toggle_rest (captured s) s) as (_ & _ & _ & _ & _ & -> & -> & _).
        now split.
      + unfold next. destruct (running s); [| now split].
        destruct (handlePhaseEnd_world (config s) h s) as (_ & _ & -> & ->).
        now split.
      + unfold next. destruct (running s); [| now split].
        destruct (handlePhaseEnd_world (captured s) h s) as (_ & _ & -> & ->).
        now split.
      + now split.
      + unfold tick. destruct (running s); [| now split].
        destruct (remaining s <=? 1); [| now split].
        destruct (handlePhaseEnd_world (captured s) h (setRemaining 0 s))
          as (_ & _ & E1 & E2).
        destruct r; [| destruct (awaits s)]; cbn; rewrite ?E1, ?E2; now split.
      + destruct (fireTimeout_rest (captured s) s)
          as (_ & _ & _ & _ & _ & _ & _ & -> & -> & _).
        now split.
      + now split.
      + now split. }
    destruct Hcfg as [H1 H2]. split; [exact H1 |].
    cbn. destruct Hc as [-> | ->]; assumption.
  - rewrite step_unmounted by exact Hm.
    destruct (aftermath_cells s e) as (_ & _ & _ & _ & _ & _ & -> & -> & _).
    now split.
Qed.

(** A property that does not depend on what the key listener and the
    interval see holds after a step when it holds after the handler and
    after the aftermath. *)
Lemma step_cases (P : State -> Prop) s e :
  (forall c x, P x -> P (setCaptured c x)) ->
  (mounted s = true -> P (handle s e)) ->
  (mounted s = false -> P (aftermath s e)) ->
  P (step s e).
Proof.
  intros Hc Hh Ha. destruct (mounted s) eqn:Hm.
  - destruct (step_mounted s e Hm) as (c & -> & _). apply Hc. now apply Hh.
  - rewrite step_unmounted by exact Hm. now apply Ha.
Qed.

(** What [completesFocus] and [endsPhase] say about the step taken. *)
Lemma endsPhase_running s e :
  endsPhase s e = true -> mounted s = true /\ running s = true.
Proof.
  unfold endsPhase. intros H. apply andb_true_iff in H as [Hm H].
  split; [exact Hm |].
  destruct e; try discriminate H; auto.
  now apply andb_true_iff in H as [Hr _].
Qed.

Lemma completesFocus_endsPhase s e :
  completesFocus s e = true -> endsPhase s e = true /\ phase s = focus.
Proof.
  unfold completesFocus, endsPhase. intros H.
  apply andb_true_iff in H as [Hm H]. rewrite Hm.
  destruct e; try discriminate H.
  - apply andb_true_iff in H as [Hp Hr]. apply Phase_eqb_eq in Hp. now rewrite Hr.
  - apply andb_true_iff in H as [Hp Hr]. apply Phase_eqb_eq in Hp. now rewrite Hr.
  - apply andb_true_iff in H as [H Hl]. apply andb_true_iff in H as [Hp Hr].
    apply Phase_eqb_eq in Hp. now rewrite Hr, Hl.
Qed.

(** A phase end is [handlePhaseEnd] with the handler's configuration; 0
    seconds are left in place of what it set when the phase
    [endsAtZero]. *)
Lemma endsPhase_handle_eq s e :
  endsPhase s e = true ->
  handle s e
  = if endsAtZero s e
    then setRemaining 0
           (handlePhaseEnd (handlerConfig s e) (historyCall e) (atEnd s e))
    else handlePhaseEnd (handlerConfig s e) (historyCall e) (atEnd s e).
Proof.
  unfold endsPhase. intros H. apply andb_true_iff in H as [Hm H].
  destruct e; try discriminate H;
    cbn [handle handlerConfig historyCall endsAtZero atEnd].
  - unfold next. now rewrite H.
  - unfold next. now rewrite H.
  - apply andb_true_iff in H as [Hr Hl]. apply Z.leb_le in Hl.
    rewrite (tick_end _ _ _ _ Hr Hl).
    destruct r; [reflexivity |]. now destruct (awaits s).
Qed.

(** Whether the page is lost at a phase end. *)
Lemma endsPhase_mounted s e :
  endsPhase s e = true ->
  mounted (step s e) = negb (throws (historyCall e) s).
Proof.
  intros He. destruct (endsPhase_running s e He) as (Hm & _).
  assert (Hh : mounted (handle s e) = negb (throws (historyCall e) s)).
  { rewrite (endsPhase_handle_eq s e He).
    assert (Ht : throws (historyCall e) (atEnd s e) = throws (historyCall e) s)
      by (destruct e; reflexivity).
    assert (Hm' : mounted (atEnd s e) = true) by (destruct e; exact Hm).
    destruct (endsAtZero s e); cbn [mounted setRemaining];
      rewrite handlePhaseEnd_mounted, Ht, Hm'; reflexivity. }
  destruct (step_mounted s e Hm) as (c & -> & _). exact Hh.
Qed.

(** The cells after a phase end that leaves the page mounted. *)
Lemma endsPhase_cells s e :
  endsPhase s e = true -> throws (historyCall e) s = false ->
  phase (step s e) = nextPhase (handlerConfig s e) (phase s) (intervalCount s)
  /\ remaining (step s e)
     = (if endsAtZero s e then 0
        else duration (handlerConfig s e) (phase (step s e)))
  /\ intervalCount (step s e) = nextCount (phase s) (intervalCount s)
  /\ running (step s e) = false
  /\ timeouts (step s e) = timeouts s ++ [phase s]
  /\ mounted (step s e) = true.
Proof.
  intros He Ht. destruct (endsPhase_running s e He) as (Hm & _).
  assert (Ht' : throws (historyCall e) (atEnd s e) = false)
    by (destruct e; exact Ht).
  destruct (handlePhaseEnd_cells (handlerConfig s e) _ _ Ht')
    as (H1 & H2 & H3 & H4 & H5 & H6).
  assert (P : phase (atEnd s e) = phase s) by (destruct e; reflexivity).
  assert (N : intervalCount (atEnd s e) = intervalCount s) by (destruct e; reflexivity).
  assert (T : timeouts (atEnd s e) = timeouts s) by (destruct e; reflexivity).
  assert (M : mounted (atEnd s e) = true) by (destruct e; exact Hm).
  rewrite P, N in H1, H2, H3. rewrite P, T in H5. rewrite M in H6.
  destruct (step_mounted s e Hm) as (c & -> & _).
  cbn [phase remaining intervalCount running timeouts mounted setCaptured].
  rewrite (endsPhase_handle_eq s e He).
  destruct (endsAtZero s e);
    cbn [phase remaining intervalCount running timeouts mounted setRemaining];
    rewrite ?H1, ?H2, ?H3, ?H4, ?H5, ?H6; repeat split.
Qed.

(** The cells after a phase end that loses the page: the values last
    shown. *)
Lemma endsPhase_thrown s e :
  endsPhase s e = true -> throws (historyCall e) s = true ->
  mounted (step s e) = false
  /\ phase (step s e) = phase s
  /\ remaining (step s e) = remaining (atEnd s e)
  /\ intervalCount (step s e) = intervalCount s
  /\ running (step s e) = running s
  /\ history (step s e) = history s.
Proof.
  intros He Ht. destruct (endsPhase_running s e He) as (Hm & _).
  assert (Ht' : throws (historyCall e) (atEnd s e) = true)
    by (destruct e; exact Ht).
  destruct (handlePhaseEnd_thrown (handlerConfig s e) _ _ Ht')
    as (H1 & H2 & H3 & H4 & H5 & H6 & _).
  assert (Hz : endsAtZero s e = false).
  { destruct e; try reflexivity. destruct r; [reflexivity |].
    cbn [endsAtZero]. cbn [historyCall] in Ht.
    now rewrite (throws_awaits _ _ Ht). }
  destruct (step_mounted s e Hm) as (c & -> & _).
  cbn [phase remaining intervalCount running history mounted setCaptured].
  rewrite (endsPhase_handle_eq s e He), Hz, H1, H2, H3, H4, H5, H6.
  destruct e; repeat split.
Qed.

(** ** Invariants of the visited states *)

Lemma Inv_handlePhaseEnd cfg h s : Inv s -> Inv (handlePhaseEnd cfg h s).
Proof.
  intros [Hc Hi Hh]. destruct (throws h s) eqn:Ht.
  - destruct (handlePhaseEnd_thrown cfg h s Ht) as (_ & H2 & _ & H4 & _ & H6 & _).
    split; rewrite ?H2, ?H4, ?H6; assumption.
  - destruct (handlePhaseEnd_cells cfg h s Ht) as (H1 & _ & H3 & _).
    split.
    + rewrite H3. destruct (phase s); cbn; lia.
    + rewrite H1, H3. destruct (phase s) eqn:E; cbn; auto; try discriminate.
      destruct (breakAfter_cases cfg (intervalCount s + 1)) as [-> | ->];
        discriminate.
    + rewrite handlePhaseEnd_history.
      destruct h, (phase s), (focusStartRef s), (getUserOrWarn s);
        auto using firstn_10_length.
Qed.

Lemma Inv_handle s e : Inv s -> Inv (handle s e).
Proof.
  intros HI. destruct e; cbn [handle].
  - destruct HI as [Hc Hi Hh]. unfold toggle. destruct (running s).
    + now split.
    + destruct (phase s) eqn:E; split; cbn; rewrite ?E; auto; try lia;
        try discriminate.
  - destruct HI as [Hc Hi Hh]. unfold toggle. destruct (running s).
    + now split.
    + destruct (phase s) eqn:E; split; cbn; rewrite ?E; auto; try lia;
        try discriminate.
  - unfold next. destruct (running s); auto using Inv_handlePhaseEnd.
  - unfold next. destruct (running s); auto using Inv_handlePhaseEnd.
  - destruct HI. split; cbn; auto; lia.
  - unfold tick. destruct (running s); auto.
    destruct (remaining s <=? 1).
    + assert (H0 : Inv (setRemaining 0 s)) by (destruct HI; now split).
      pose proof (Inv_handlePhaseEnd (captured s) h _ H0) as [H1 H2 H3].
      destruct r; [now split |]. destruct (awaits s); now split.
    + destruct HI. now split.
  - destruct HI as [Hc Hi Hh].
    destruct (fireTimeout_rest (captured s) s) as (H1 & _ & H3 & _ & H5 & _).
    split; rewrite ?H1, ?H3, ?H5; assumption.
  - destruct HI. now split.
  - destruct HI. now split.
  - destruct HI. now split.
Qed.

Lemma Inv_step s e : Inv s -> Inv (step s e).
Proof.
  intros HI. apply step_cases.
  - intros c x [H1 H2 H3]. now split.
  - intros _. now apply Inv_handle.
  - intros _. destruct HI as [Hc Hi Hh].
    destruct (aftermath_cells s e) as (H1 & _ & H3 & _ & H5 & _).
    split; rewrite ?H1, ?H3, ?H5; assumption.
Qed.

Lemma Inv_configured cfg t0 u rows : Inv (configured cfg t0 u rows).
Proof.
  split; cbn; try lia.
  destruct u; cbn; [apply firstn_10_length | lia].
Qed.

Lemma Inv_visited s : visited s -> Inv s.
Proof. induction 1; auto using Inv_configured, Inv_step. Qed.

(** A step other than a reset never lowers the counter. *)
Lemma step_count_le s e :
  Inv s -> e <> Reset -> intervalCount s <= intervalCount (step s e).
Proof.
  intros [Hc Hi Hh] Hne. apply step_cases.
  - intros c x H. exact H.
  - intros _. destruct e; cbn [handle]; try congruence; cbn; try lia.
    + unfold toggle. destruct (running s); cbn; try lia.
      destruct (phase s) eqn:E; cbn; try lia. rewrite Hi; auto; lia.
    + unfold toggle. destruct (running s); cbn; try lia.
      destruct (phase s) eqn:E; cbn; try lia. rewrite Hi; auto; lia.
    + unfold next. destruct (running s); try lia.
      destruct (throws h s) eqn:Ht.
      * destruct (handlePhaseEnd_thrown (config s) h s Ht) as (_ & _ & _ & -> & _). lia.
      * destruct (handlePhaseEnd_cells (config s) h s Ht) as (_ & _ & -> & _).
        destruct (phase s); cbn; lia.
    + unfold next. destruct (running s); try lia.
      destruct (throws h s) eqn:Ht.
      * destruct (handlePhaseEnd_thrown (captured s) h s Ht) as (_ & _ & _ & -> & _). lia.
      * destruct (handlePhaseEnd_cells (captured s) h s Ht) as (_ & _ & -> & _).
        destruct (phase s); cbn; lia.
    + unfold tick. destruct (running s); try lia.
      destruct (remaining s <=? 1); cbn; try lia.
      assert (intervalCount s
              <= intervalCount (handlePhaseEnd (captured s) h (setRemaining 0 s))).
      { destruct (throws h (setRemaining 0 s)) eqn:Ht.
        * destruct (handlePhaseEnd_thrown (captured s) h _ Ht) as (_ & _ & _ & -> & _).
          cbn. lia.
        * destruct (handlePhaseEnd_cells (captured s) h _ Ht) as (_ & _ & -> & _).
          cbn. destruct (phase s); cbn; lia. }
      destruct r; [assumption |]. destruct (awaits s); assumption.
    + destruct (fireTimeout_rest (captured s) s) as (_ & _ & -> & _). lia.
  - intros _. destruct (aftermath_cells s e) as (_ & _ & -> & _). lia.
Qed.

Lemma run_count_le es : forall s,
  Inv s -> ~ In Reset es -> intervalCount s <= intervalCount (run s es).
Proof.
  induction es as [|e es IH]; intros s HI Hn; cbn; try lia.
  assert (e <> Reset) by (intros ->; apply Hn; now left).
  assert (~ In Reset es) by (intros ?; apply Hn; now right).
  transitivity (intervalCount (step s e)).
  - now apply step_count_le.
  - apply IH; auto using Inv_step.
Qed.

(** ** The seconds left while the inputs are left alone *)

Section Remaining.

Variable cfg : Config.
Hypothesis valid : ValidConfig cfg.




End Remaining.

(** ** The count and the phase while the inputs are left alone *)

Section InStepFacts.

Variable cfg : Config.
Hypothesis valid : ValidConfig cfg.

(** The break follows divisibility of the new count. *)
Lemma breakAfter_divide k :
  (breakAfter cfg k = long /\ (intervalsBeforeLong cfg | k))
  \/ (breakAfter cfg k = short /\ ~ (intervalsBeforeLong cfg | k)).
Proof.
  destruct valid. unfold breakAfter, JS.rem.
  destruct (intervalsBeforeLong cfg =? 0) eqn:E; [apply Z.eqb_eq in E; lia |].
  apply Z.eqb_neq in E.
  pose proof (Z.rem_divide k (intervalsBeforeLong cfg) E) as Hd.
  destruct (Z.rem k (intervalsBeforeLong cfg)) eqn:R.
  - left. split; [reflexivity | now apply Hd].
  - right. split; [reflexivity |]. intros D. apply Hd in D. discriminate.
  - right. split; [reflexivity |]. intros D. apply Hd in D. discriminate.
Qed.

Lemma InStep_handlePhaseEnd h s : InStep cfg s -> InStep cfg (handlePhaseEnd cfg h s).
Proof.
  intros [HL HS]. destruct (throws h s) eqn:Ht.
  - destruct (handlePhaseEnd_thrown cfg h s Ht) as (_ & H2 & _ & H4 & _).
    split; rewrite H2, H4; assumption.
  - destruct (handlePhaseEnd_cells cfg h s Ht) as (H1 & _ & H3 & _).
    split; rewrite H1, H3; destruct (phase s); cbn; try discriminate;
      destruct (breakAfter_divide (intervalCount s + 1)) as [[E D] | [E D]];
      rewrite E; intros; congruence.
Qed.

Lemma InStep_handle s e :
  config s = cfg -> captured s = cfg -> isEdit e = false ->
  InStep cfg s -> InStep cfg (handle s e).
Proof.
  intros Hc Hk He HI. destruct e; cbn [handle]; try discriminate He;
    rewrite ?Hc, ?Hk.
  - destruct HI as [HL HS]. destruct (Phase_eq_dec (phase s) idle) as [Hi | Hn].
    + split; rewrite toggle_phase, Hi; destruct (running s); discriminate.
    + split; rewrite toggle_phase, toggle_intervalCount by exact Hn;
        destruct (running s); auto; destruct (phase s); auto; congruence.
  - destruct HI as [HL HS]. destruct (Phase_eq_dec (phase s) idle) as [Hi | Hn].
    + split; rewrite toggle_phase, Hi; destruct (running s); discriminate.
    + split; rewrite toggle_phase, toggle_intervalCount by exact Hn;
        destruct (running s); auto; destruct (phase s); auto; congruence.
  - unfold next. destruct (running s); auto using InStep_handlePhaseEnd.
  - unfold next. destruct (running s); auto using InStep_handlePhaseEnd.
  - split; discriminate.
  - unfold tick. destruct (running s); auto.
    destruct (remaining s <=? 1).
    + assert (H0 : InStep cfg (setRemaining 0 s)) by (destruct HI; now split).
      pose proof (InStep_handlePhaseEnd h _ H0) as [H1 H2].
      destruct r; [now split |]. destruct (awaits s); now split.
    + destruct HI. now split.
  - destruct HI as [HL HS].
    destruct (fireTimeout_rest cfg s) as (H1 & _ & H3 & _).
    split; rewrite H1, H3; assumption.
  - destruct HI. now split.
  - destruct HI. now split.
Qed.

Lemma InStep_reachable s : reachable cfg s -> InStep cfg s.
Proof.
  induction 1 as [| s e Hr IH He].
  - split; discriminate.
  - destruct (reachable_config cfg s Hr) as [Hc Hk].
    apply step_cases.
    + intros c x [H1 H2]. now split.
    + intros _. now apply InStep_handle.
    + intros _. destruct IH as [HL HS].
      destruct (aftermath_cells s e) as (H1 & _ & H3 & _).
      split; rewrite H1, H3; assumption.
Qed.

End InStepFacts.

(** ** The countdown *)

Lemma state_eta s r t :
  r = remaining s -> t = clock s -> setRemaining r (setClock t s) = s.
Proof. intros -> ->. destruct s; reflexivity. Qed.

Lemma elapse_step s ms :
  mounted s = true -> step s (Elapse ms) = setClock (clock s + Z.of_N ms) s.
Proof. intros Hm. now apply step_quiet. Qed.

Lemma second_running s :
  running s = true -> mounted s = true -> 1 < remaining s ->
  run s second = setRemaining (remaining s - 1) (setClock (clock s + 1000) s).
Proof.
  intros Hr Hm Hrem. unfold second. cbn [run fold_left].
  rewrite elapse_step by exact Hm.
  change (Z.of_N 1000) with 1000.
  assert (E : handle (setClock (clock s + 1000) s) (Tick atRender atRender)
              = setRemaining (remaining s - 1) (setClock (clock s + 1000) s)).
  { cbn [handle]. now rewrite tick_countdown. }
  rewrite step_quiet; rewrite ?E; auto.
Qed.


Lemma seconds_countdown k : forall s,
  running s = true -> mounted s = true -> Z.of_nat k < remaining s ->
  run s (seconds k)
  = setRemaining (remaining s - Z.of_nat k)
      (setClock (clock s + 1000 * Z.of_nat k) s).
Proof.
  induction k as [|k IH]; intros s Hr Hm Hk.
  - symmetry. apply state_eta; cbn; lia.
  - change (seconds (S k)) with (second ++ seconds k).
    rewrite run_app, second_running by (auto; lia).
    rewrite IH; [| exact Hr | exact Hm | cbn; lia].
    cbn [remaining clock setRemaining setClock].
    unfold setRemaining, setClock. cbn. f_equal; lia.
Qed.


Lemma seconds_snoc k : seconds (S k) = seconds k ++ second.
Proof.
  unfold seconds. induction k as [|k IH]; [reflexivity |].
  change (concat (repeat second (S (S k))))
    with (second ++ concat (repeat second (S k))).
  rewrite IH at 1. rewrite app_assoc. reflexivity.
Qed.

Lemma expire_running s :
  running s = true -> mounted s = true -> 1 <= remaining s ->
  expire s = step (lastSecond s) (Tick atRender atRender).
Proof.
  intros Hr Hm Hrem. unfold expire.
  destruct (Z.to_nat (remaining s)) as [|n] eqn:E; [lia |].
  rewrite seconds_snoc, run_app, seconds_countdown by (auto; lia).
  unfold second. cbn [run fold_left]. rewrite elapse_step by exact Hm.
  f_equal. unfold lastSecond, setRemaining, setClock. cbn.
  change (Z.of_N 1000) with 1000. f_equal; lia.
Qed.

(** ** Phase ends and the world *)

(** What a phase end does beyond the cells of the timer. *)
Lemma endsPhase_world s e :
  endsPhase s e = true ->
  clock (step s e) = clock s
  /\ authUser (step s e) = authUser s
  /\ config (step s e) = config s
  /\ inserted (step s e)
     = match phase s, focusStartRef s, getUserOrWarn s with
       | focus, Some start, Some user =>
           mkRow user (JS.toISOString start) (JS.toISOString (clock s))
           :: inserted s
       | _, _, _ => inserted s
       end
  /\ focusStartRef (step s e)
     = match phase s with focus => None | _ => focusStartRef s end
  /\ history (step s e)
     = match historyCall e, phase s, focusStartRef s, getUserOrWarn s with
       | atDispatch, focus, Some start, Some user =>
           firstn 10 (mkSession (JS.String_of (clock s)) (JS.toISOString start)
                                (Some (JS.toISOString (clock s)))
                      :: history s)
       | _, _, _, _ => history s
       end
  /\ (throws (historyCall e) s = false -> captured (step s e) = config s).
Proof.
  intros He. destruct (endsPhase_running s e He) as (Hm & Hr).
  pose proof (endsPhase_handle_eq s e He) as Hh.
  set (X := handlePhaseEnd (handlerConfig s e) (historyCall e) (atEnd s e)) in *.
  destruct (handlePhaseEnd_world (handlerConfig s e) (historyCall e) (atEnd s e))
    as (W1 & W2 & W3 & W4).
  pose proof (handlePhaseEnd_inserted (handlerConfig s e) (historyCall e) (atEnd s e)) as W5.
  pose proof (handlePhaseEnd_focusStart (handlerConfig s e) (historyCall e) (atEnd s e)) as W6.
  pose proof (handlePhaseEnd_history (handlerConfig s e) (historyCall e) (atEnd s e)) as W7.
  fold X in W1, W2, W3, W4, W5, W6, W7.
  assert (A : clock (atEnd s e) = clock s /\ authUser (atEnd s e) = authUser s
              /\ config (atEnd s e) = config s /\ phase (atEnd s e) = phase s
              /\ focusStartRef (atEnd s e) = focusStartRef s
              /\ getUserOrWarn (atEnd s e) = getUserOrWarn s
              /\ inserted (atEnd s e) = inserted s
              /\ history (atEnd s e) = history s)
    by (destruct e; repeat split).
  destruct A as (A1 & A2 & A3 & A4 & A5 & A6 & A7 & A8).
  rewrite A1 in W1. rewrite A2 in W2. rewrite A3 in W3.
  rewrite A4, A5, A6, A7, A1 in W5. rewrite A4, A5 in W6.
  rewrite A4, A5, A6, A8, A1 in W7.
  assert (P : clock (handle s e) = clock s /\ authUser (handle s e) = authUser s
              /\ config (handle s e) = config s
              /\ inserted (handle s e) = inserted X
              /\ focusStartRef (handle s e) = focusStartRef X
              /\ history (handle s e) = history X
              /\ running (handle s e) = running X
              /\ mounted (handle s e) = mounted X).
  { rewrite Hh. destruct (endsAtZero s e);
      cbn [clock authUser config inserted focusStartRef history running mounted
           setRemaining];
      rewrite W1, W2, W3; repeat split. }
  destruct P as (P1 & P2 & P3 & P4 & P5 & P6 & P7 & P8).
  split; [| split; [| split; [| split; [| split; [| split]]]]].
  1-6: destruct (step_mounted s e Hm) as (c & -> & _);
       cbn [clock authUser config inserted focusStartRef history setCaptured];
       congruence.
  intros Ht.
  assert (Ht' : throws (historyCall e) (atEnd s e) = false) by (destruct e; exact Ht).
  destruct (handlePhaseEnd_cells (handlerConfig s e) _ _ Ht')
    as (_ & _ & _ & H4 & _ & H6).
  fold X in H4, H6.
  assert (M : mounted (atEnd s e) = true) by (destruct e; exact Hm).
  rewrite step_renewed; [cbn; exact P3 | exact Hm | congruence |].
  left. rewrite P7, H4, Hr. discriminate.
Qed.

(** The rows sent so far grow only when a focus phase ends. *)
Lemma step_inserted_other s e :
  completesFocus s e = false -> inserted (step s e) = inserted s.
Proof.
  intros Hc. destruct (endsPhase s e) eqn:He.
  - destruct (endsPhase_world s e He) as (_ & _ & _ & -> & _).
    destruct (phase s) eqn:Ep; try reflexivity.
    exfalso. revert Hc He. unfold completesFocus, endsPhase. rewrite Ep.
    destruct (mounted s); [| discriminate]. cbn.
    destruct e; cbn; congruence.
  - apply step_cases.
    + intros c x H. exact H.
    + intros Hm. revert He. unfold endsPhase. rewrite Hm. cbn [andb].
      destruct e; cbn [handle]; intros He; try reflexivity.
      * now destruct (toggle_rest (config s) s) as (-> & _).
      * now destruct (toggle_rest (captured s) s) as (-> & _).
      * unfold next. now rewrite He.
      * unfold next. now rewrite He.
      * unfold tick. destruct (running s); [| reflexivity].
        cbn in He. now rewrite He.
      * now destruct (fireTimeout_rest (captured s) s) as (_ & _ & _ & -> & _).
    + intros _. now destruct (aftermath_cells s e) as (_ & _ & _ & _ & _ & -> & _).
Qed.

Lemma step_inserted_focus s e :
  completesFocus s e = true ->
  inserted (step s e)
  = match focusStartRef s, getUserOrWarn s with
    | Some start, Some user =>
        mkRow user (JS.toISOString start) (JS.toISOString (clock s)) :: inserted s
    | _, _ => inserted s
    end.
Proof.
  intros Hc. destruct (completesFocus_endsPhase s e Hc) as [He Hp].
  destruct (endsPhase_world s e He) as (_ & _ & _ & -> & _). now rewrite Hp.
Qed.

(** A phase left to run out for as many seconds as are left. *)
Lemma lastSecond_endsPhase s :
  running s = true -> mounted s = true ->
  endsPhase (lastSecond s) (Tick atRender atRender) = true.
Proof. intros Hr Hm. unfold endsPhase. cbn. now rewrite Hr, Hm. Qed.

Lemma expire_inserted s :
  running s = true -> mounted s = true -> 1 <= remaining s ->
  inserted (expire s)
  = match phase s, focusStartRef s, authUser s with
    | focus, Some start, Some user =>
        mkRow user (JS.toISOString start)
              (JS.toISOString (clock s + 1000 * remaining s))
        :: inserted s
    | _, _, _ => inserted s
    end.
Proof.
  intros Hr Hm Hrem. rewrite expire_running by assumption.
  destruct (endsPhase_world _ _ (lastSecond_endsPhase s Hr Hm))
    as (_ & _ & _ & -> & _).
  reflexivity.
Qed.

(** A phase left to run out on a page that stays mounted. *)
Lemma expire_cells s :
  running s = true -> mounted s = true -> 1 <= remaining s ->
  throws atRender s = false ->
  phase (expire s) = nextPhase (captured s) (phase s) (intervalCount s)
  /\ remaining (expire s) = duration (captured s) (phase (expire s))
  /\ intervalCount (expire s) = nextCount (phase s) (intervalCount s)
  /\ running (expire s) = false
  /\ timeouts (expire s) = timeouts s ++ [phase s]
  /\ mounted (expire s) = true
  /\ clock (expire s) = clock s + 1000 * remaining s
  /\ authUser (expire s) = authUser s
  /\ config (expire s) = config s
  /\ captured (expire s) = config s
  /\ focusStartRef (expire s)
     = match phase s with focus => None | _ => focusStartRef s end.
Proof.
  intros Hr Hm Hrem Ht. rewrite expire_running by assumption.
  pose proof (lastSecond_endsPhase s Hr Hm) as He.
  destruct (endsPhase_cells _ _ He Ht) as (H1 & H2 & H3 & H4 & H5 & H6).
  destruct (endsPhase_world _ _ He) as (W1 & W2 & W3 & _ & W5 & _ & W7).
  rewrite H1, H3, H4, H5, H6, W1, W2, W3, W5, (W7 Ht).
  split; [reflexivity |]. split; [rewrite H2, H1; reflexivity |].
  repeat split.
Qed.

(** The auto-start of a stopped timer. *)
Lemma autostart_cells s p :
  mounted s = true -> running s = false -> timeouts s = [p] -> p <> idle ->
  phase (autostart s) = phase s
  /\ remaining (autostart s) = remaining s
  /\ intervalCount (autostart s) = intervalCount s
  /\ running (autostart s) = true
  /\ timeouts (autostart s) = []
  /\ mounted (autostart s) = true
  /\ clock (autostart s) = clock s + 1000
  /\ authUser (autostart s) = authUser s
  /\ config (autostart s) = config s
  /\ captured (autostart s) = config s
  /\ inserted (autostart s) = inserted s
  /\ history (autostart s) = history s
  /\ focusStartRef (autostart s)
     = match p with focus => Some (clock s + 1000) | _ => focusStartRef s end.
Proof.
  intros Hm Hr Ht Hp. unfold autostart. cbn [run fold_left].
  rewrite elapse_step by exact Hm. change (Z.of_N 1000) with 1000.
  set (s1 := setClock (clock s + 1000) s).
  assert (Ht1 : timeouts s1 = [p]) by exact Ht.
  destruct (fireTimeout_cells (captured s1) s1 p [] Ht1 Hp)
    as (F1 & F2 & F3 & F4 & F5 & F6).
  destruct (fireTimeout_rest (captured s1) s1)
    as (_ & _ & _ & R4 & R5 & R6 & R7 & R8 & R9 & R10).
  rewrite step_renewed;
    [| exact Hm | cbn [handle]; rewrite R10; exact Hm
     | left; cbn [handle]; rewrite F4; change (running s1) with (running s);
       rewrite Hr; discriminate].
  cbn [handle phase remaining intervalCount running timeouts mounted clock
       authUser config captured inserted history focusStartRef setCaptured].
  rewrite F1, F2, F3, F4, F5, F6, R4, R5, R6, R7, R8, R10.
  repeat split; assumption.
Qed.

(** ** The cycle of phases *)

Section Cycle.

Variable cfg : Config.
Hypothesis valid : ValidConfig cfg.

Lemma breakAfter_short k :
  1 <= k < intervalsBeforeLong cfg -> breakAfter cfg k = short.
Proof.
  intros H. unfold breakAfter, JS.rem.
  destruct (intervalsBeforeLong cfg =? 0) eqn:E; [reflexivity |].
  rewrite Z.rem_small by lia. destruct k; try lia; reflexivity.
Qed.

Lemma breakAfter_long : breakAfter cfg (intervalsBeforeLong cfg) = long.
Proof.
  destruct valid. unfold breakAfter, JS.rem.
  destruct (intervalsBeforeLong cfg =? 0) eqn:E; [apply Z.eqb_eq in E; lia |].
  rewrite Z.rem_same by lia. reflexivity.
Qed.

Lemma breakAfter_short_mod q r :
  0 <= q -> 1 <= r < intervalsBeforeLong cfg ->
  breakAfter cfg (q * intervalsBeforeLong cfg + r) = short.
Proof.
  intros Hq Hr.
  destruct (breakAfter_divide cfg valid (q * intervalsBeforeLong cfg + r))
    as [[_ D] | [E _]]; [exfalso | exact E].
  apply Z.mod_divide in D; [| lia].
  rewrite Z.add_comm, Z.mod_add, Z.mod_small in D by lia. lia.
Qed.

Lemma breakAfter_long_mod q :
  breakAfter cfg (q * intervalsBeforeLong cfg) = long.
Proof.
  destruct (breakAfter_divide cfg valid (q * intervalsBeforeLong cfg))
    as [[E _] | [_ D]]; [exact E | exfalso].
  apply D. exists q. reflexivity.
Qed.

Lemma nextPhase_not_idle p n : p <> idle -> nextPhase cfg p n <> idle.
Proof.
  destruct p; cbn; try congruence; try discriminate.
  destruct (breakAfter_cases cfg (n + 1)) as [-> | ->]; discriminate.
Qed.

Lemma duration_pos p : p <> idle -> 1 <= duration cfg p.
Proof. destruct valid. destruct p; cbn; try congruence; lia. Qed.

(** A started phase left to run out, then auto-started: the next phase is
    started, with the count the ended phase leaves.  A focus phase is taken
    to end with no user signed in. *)
Lemma round p n s :
  p <> idle -> Started cfg p n s -> (p = focus -> authUser s = None) ->
  shown (expire s) = (nextPhase cfg p n, duration cfg (nextPhase cfg p n))
  /\ Started cfg (nextPhase cfg p n) (nextCount p n) (autostart (expire s))
  /\ clock (autostart (expire s)) = clock s + 1000 * duration cfg p + 1000
  /\ authUser (autostart (expire s)) = authUser s
  /\ inserted (autostart (expire s)) = inserted s
  /\ focusStartRef (autostart (expire s))
     = match p with
       | focus => Some (clock s + 1000 * duration cfg p + 1000)
       | _ => focusStartRef s
       end.
Proof.
  intros Hp [Hph Hrem Hc Hr Ht Hcf Hk Hm] Hu.
  assert (Hpos : 1 <= remaining s) by (rewrite Hrem; now apply duration_pos).
  assert (Hth : throws atRender s = false).
  { unfold throws, getUserOrWarn. rewrite Hph.
    destruct p; try reflexivity. rewrite (Hu eq_refl).
    now destruct (focusStartRef s). }
  destruct (expire_cells s Hr Hm Hpos Hth)
    as (E1 & E2 & E3 & E4 & E5 & E6 & E7 & E8 & E9 & E10 & E11).
  pose proof (expire_inserted s Hr Hm Hpos) as E12.
  rewrite Hk, Hph, Hc in E1. rewrite Hk, E1 in E2. rewrite Hph, Hc in E3.
  rewrite Ht, Hph in E5. change ([] ++ [p]) with [p] in E5.
  rewrite Hrem in E7. rewrite Hcf in E9, E10. rewrite Hph in E11.
  assert (E12' : inserted (expire s) = inserted s).
  { rewrite E12, Hph. destruct p; try reflexivity. rewrite (Hu eq_refl).
    now destruct (focusStartRef s). }
  remember (expire s) as s1 eqn:Es1. clear Es1 E12.
  destruct (autostart_cells s1 p E6 E4 E5 Hp)
    as (A1 & A2 & A3 & A4 & A5 & A6 & A7 & A8 & A9 & A10 & A11 & _ & A13).
  split; [unfold shown; now rewrite E1, E2 |].
  split; [split; congruence |].
  split; [congruence |]. split; [congruence |]. split; [congruence |].
  rewrite A13, E7, E11. destruct p; congruence.
Qed.

Lemma round_focus n s :
  Started cfg focus n s -> authUser s = None ->
  shown (expire s)
  = (breakAfter cfg (n + 1), duration cfg (breakAfter cfg (n + 1)))
  /\ Started cfg (breakAfter cfg (n + 1)) (n + 1) (autostart (expire s))
  /\ authUser (autostart (expire s)) = None.
Proof.
  intros Hs Hu.
  destruct (round focus n s ltac:(discriminate) Hs (fun _ => Hu))
    as (H1 & H2 & _ & H4 & _).
  split; [exact H1 |]. split; [exact H2 | congruence].
Qed.

Lemma round_break p n s :
  p = short \/ p = long -> Started cfg p n s -> authUser s = None ->
  shown (expire s) = (focus, workMin cfg * 60)
  /\ Started cfg focus n (autostart (expire s))
  /\ authUser (autostart (expire s)) = None.
Proof.
  intros [-> | ->] Hs Hu.
  - destruct (round short n s ltac:(discriminate) Hs ltac:(discriminate))
      as (H1 & H2 & _ & H4 & _).
    split; [exact H1 |]. split; [exact H2 | congruence].
  - destruct (round long n s ltac:(discriminate) Hs ltac:(discriminate))
      as (H1 & H2 & _ & H4 & _).
    split; [exact H1 |]. split; [exact H2 | congruence].
Qed.

(** From a focus phase with [m] intervals missing before the long break
    of the current cycle, whatever the number [q] of cycles completed. *)
Lemma cycle_tail_any q m : forall s,
  0 <= q -> 0 <= intervalsBeforeLong cfg - 1 - Z.of_nat m ->
  Started cfg focus
    (q * intervalsBeforeLong cfg + (intervalsBeforeLong cfg - 1 - Z.of_nat m)) s ->
  authUser s = None ->
  map shown (expiries (S (2 * m)) s)
  = concat (repeat [(short, shortMin cfg * 60); (focus, workMin cfg * 60)] m)
    ++ [(long, longMin cfg * 60)]
  /\ Started cfg focus ((q + 1) * intervalsBeforeLong cfg)
       (after (S (S (2 * m))) s)
  /\ authUser (after (S (S (2 * m))) s) = None.
Proof.
  induction m as [|m IH]; intros s Hq Hm Hs Hu.
  - destruct (round_focus _ s Hs Hu) as (Hsh & Hst & Hu1).
    replace (q * intervalsBeforeLong cfg
             + (intervalsBeforeLong cfg - 1 - Z.of_nat 0) + 1)
      with ((q + 1) * intervalsBeforeLong cfg) in Hsh, Hst by lia.
    rewrite breakAfter_long_mod in Hsh, Hst.
    destruct (round_break long _ _ (or_intror eq_refl) Hst Hu1) as (_ & Hst' & Hu2).
    split; [cbn; now rewrite Hsh | split; [exact Hst' | exact Hu2]].
  - destruct (round_focus _ s Hs Hu) as (Hsh & Hst & Hu1).
    replace (q * intervalsBeforeLong cfg
             + (intervalsBeforeLong cfg - 1 - Z.of_nat (S m)) + 1)
      with (q * intervalsBeforeLong cfg
            + (intervalsBeforeLong cfg - 1 - Z.of_nat m)) in Hsh, Hst by lia.
    rewrite breakAfter_short_mod in Hsh, Hst by lia.
    destruct (round_break short _ _ (or_introl eq_refl) Hst Hu1)
      as (Hsh' & Hst' & Hu2).
    replace (2 * S m)%nat with (S (S (2 * m))) by lia.
    destruct (IH _ Hq ltac:(lia) Hst' Hu2) as (IH1 & IH2 & IH3).
    split; [| split].
    + cbn [expiries map repeat concat app]. rewrite Hsh, Hsh'. cbn [duration].
      do 2 f_equal. exact IH1.
    + exact IH2.
    + exact IH3.
Qed.

End Cycle.

Lemma alternate_shift {A} (x y z : A) m :
  x :: concat (repeat [y; x] m) ++ [z] = concat (repeat [x; y] m) ++ [x; z].
Proof.
  induction m as [|m IH]; cbn; [reflexivity |]. do 2 f_equal. exact IH.
Qed.

Lemma count_occ_alternate (p : Phase) (a b : Z) m :
  p <> focus ->
  count_occ Phase_eq_dec
    (map fst (concat (repeat [(focus, a); (p, b)] m))) p = m.
Proof.
  intros Hp. induction m as [|m IH]; [reflexivity |].
  cbn [repeat concat app map fst].
  rewrite count_occ_cons_neq by congruence.
  rewrite count_occ_cons_eq by reflexivity. now f_equal.
Qed.

Lemma count_occ_alternate_other (p q : Phase) (a b : Z) m :
  q <> focus -> q <> p ->
  count_occ Phase_eq_dec
    (map fst (concat (repeat [(focus, a); (p, b)] m))) q = 0%nat.
Proof.
  intros Hf Hp. induction m as [|m IH]; [reflexivity |].
  cbn [repeat concat app map fst].
  rewrite !count_occ_cons_neq by congruence. exact IH.
Qed.

(** ** Bounds on the seconds left *)

(** C5, evaluated on the code. A visitor enters 10 in the focus minutes
    of the idle page and presses Space. The key listener still holds the
    [toggle] of the render before the edit, which starts the focus phase
    with 25 minutes: the page is in a focus phase with 1500 seconds left
    while the configured focus duration is 600 seconds and the largest
    configured duration is 900 seconds. From then on the inputs are left
    alone and the excess stays: a second later 1499 seconds are left. The
    Start button runs the [toggle] of the current render and leaves 600
    seconds. *)
Lemma C5_space_starts_with_the_focus_length_before_the_edit :
  config typedTen = mkConfig 10 5 15 4
  /\ (let s := step typedTen Space in
      phase s = focus /\ remaining s = 1500
      /\ duration (config s) (phase s) = 600
      /\ Z.max (duration (config s) focus)
               (Z.max (duration (config s) short) (duration (config s) long)) = 900
      /\ captured s = config s
      /\ shown (run s (seconds 1)) = (focus, 1499))
  /\ (let s := step typedTen Toggle in
      phase s = focus /\ remaining s = 600).
Proof. repeat split; vm_compute; reflexivity. Qed.

(** ** The interval counter *)

(** C4, evaluated on the code. A signed-in user presses Space and then
    skips the focus phase, or lets it run out. The row is sent; React then
    renders, calls the function given to [setHistory], which reads the ref
    that [handlePhaseEnd] has cleared, and unmounts the page: the count was
    0 and the 1 that [handlePhaseEnd] set is never shown. For a visitor who
    is not signed in the same key presses raise the count to 1. *)
Lemma C4_count_is_lost_with_the_page :
  (completesFocus (startedBy "u") (KeyN atRender) = true
   /\ intervalCount (startedBy "u") = 0
   /\ (let s := step (startedBy "u") (KeyN atRender) in
       mounted s = false /\ intervalCount s = 0
       /\ length (inserted s) = 1%nat))
  /\ (let s0 := run (startedBy "u") (seconds 1499) in
      completesFocus s0 (Tick atRender atRender) = true
      /\ (let s := step s0 (Tick atRender atRender) in
          mounted s = false /\ intervalCount s = 0
          /\ length (inserted s) = 1%nat))
  /\ (completesFocus started (KeyN atRender) = true
      /\ (let s := step started (KeyN atRender) in
          mounted s = true /\ intervalCount s = 1)).
Proof. repeat split; vm_compute; reflexivity. Qed.

(** ** Pausing, resuming and skipping *)

(** C6, as the code has it. Pressing start while the timer is paused in a
    phase other than idle sets [running] and leaves the phase, the seconds
    left and the interval counter as they were. Resuming a focus phase
    stores the current time as the focus start, replacing the earlier one;
    resuming a break leaves the stored focus start alone. *)
Theorem C6_resume_restamps_focus_start cfg s :
  phase s <> idle -> running s = false ->
  running (toggle cfg s) = true
  /\ phase (toggle cfg s) = phase s
  /\ remaining (toggle cfg s) = remaining s
  /\ intervalCount (toggle cfg s) = intervalCount s
  /\ focusStartRef (toggle cfg s) =
     match phase s with
     | focus => Some (clock s)
     | _ => focusStartRef s
     end.
Proof.
  intros Hp Hr. rewrite (toggle_paused cfg s Hr).
  destruct (phase s) eqn:E; [congruence | | |]; cbn; rewrite ?E; auto.
Qed.

Lemma C6_witness :
  phase pausedFocus <> idle /\ running pausedFocus = false
  /\ phase (toggle defaults pausedFocus) = focus
  /\ remaining (toggle defaults pausedFocus) = 1500.
Proof.
  assert (Hp : phase pausedFocus <> idle) by (vm_compute; discriminate).
  assert (Hr : running pausedFocus = false) by reflexivity.
  destruct (C6_resume_restamps_focus_start defaults pausedFocus Hp Hr)
    as (_ & Hphase & Hrem & _).
  repeat split; auto.
Defined.

(** C6 as the specification words it fails: the focus phase was started
    at time 0 and paused; resuming it at time 8000 overwrites the stored
    start time. *)
Lemma C6_counterexample :
  phase pausedFocus = focus /\ running pausedFocus = false
  /\ focusStartRef pausedFocus = Some 0
  /\ focusStartRef (toggle defaults pausedFocus) = Some 8000.
Proof. repeat split; reflexivity. Qed.

(** C8, as the code has it. Start and pause are one command, [toggle].
    On a running timer it pauses: [running] becomes false and no other
    cell changes, so the phase stays and no row is sent. It is not
    idempotent and not ignored while running: applied once more it sets
    [running] again. Skipping while the timer is not running changes
    nothing. *)
Theorem C8_toggle_pauses_then_resumes cfg h s :
  (running s = true ->
     toggle cfg s = setRunning false s
     /\ phase (toggle cfg s) = phase s
     /\ remaining (toggle cfg s) = remaining s
     /\ inserted (toggle cfg s) = inserted s
     /\ running (toggle cfg (toggle cfg s)) = true)
  /\ (running s = false -> next cfg h s = s).
Proof.
  split; intros Hr.
  - rewrite (toggle_running cfg s Hr). repeat split.
  - unfold next. now rewrite Hr.
Qed.

Lemma C8_witness :
  running started = true
  /\ toggle defaults started = setRunning false started
  /\ running (toggle defaults started) = false
  /\ next defaults atRender (toggle defaults started) = toggle defaults started.
Proof.
  assert (Hr : running started = true) by reflexivity.
  assert (Hp : running (toggle defaults started) = false) by reflexivity.
  destruct (C8_toggle_pauses_then_resumes defaults atRender started) as [Hrun _].
  destruct (C8_toggle_pauses_then_resumes defaults atRender (toggle defaults started))
    as [_ Hskip].
  destruct (Hrun Hr) as (Heq & _). repeat split; auto.
Defined.

(** C8 as the specification words it fails: on a running timer the
    start/pause command is not a no-op (it pauses), and pausing twice is
    not pausing once (the second press resumes). *)
Lemma C8_counterexample :
  running started = true
  /\ running (toggle defaults started) = false
  /\ running (toggle defaults (toggle defaults started)) = true.
Proof. repeat split; reflexivity. Qed.

(** ** Focus phases that end without a signed-in user *)

(** C9, evaluated on the code. A visitor presses Space and skips the
    focus phase. Not signed in: no row is sent, the history stays empty and
    the timer stops in a short break of 300 seconds with the count at 1 and
    the auto-start pending. Signed in, from the same cells: the row is sent
    and the page is unmounted, the cells last shown being those of the
    running focus phase; so the transition does not go the way it goes
    without a user. The same holds when the phase runs out. *)
Lemma C9_transition_differs_for_signed_in_user :
  completesFocus started (KeyN atRender) = true
  /\ getUserOrWarn started = None
  /\ (let s := step started (KeyN atRender) in
      mounted s = true /\ inserted s = [] /\ history s = []
      /\ cells s = (short, 300, 1, false, None, [focus]))
  /\ cells (setAuthUser (Some "u"%string) started) = cells started
  /\ (let s := step (setAuthUser (Some "u"%string) started) (KeyN atRender) in
      mounted s = false /\ length (inserted s) = 1%nat
      /\ cells s = (focus, 1500, 0, true, None, [focus]))
  /\ (let s := run started (seconds 1500) in
      mounted s = true /\ inserted s = []
      /\ cells s = (short, 300, 1, false, None, [focus]))
  /\ (let s := run (setAuthUser (Some "u"%string) started) (seconds 1500) in
      mounted s = false /\ length (inserted s) = 1%nat
      /\ cells s = (focus, 0, 0, true, None, [focus])).
Proof. repeat split; vm_compute; reflexivity. Qed.

(** ** The "Focus Today" figure *)

Lemma todayCount_le_length today h : (todayCount today h <= length h)%nat.
Proof. unfold todayCount. apply filter_length_le. Qed.

(** C10. The "Focus Today" figure is computed over the in-memory history
    only, and that list never holds more than ten sessions, neither as
    loaded at mount nor after a finished session is put in front; so in
    every state the page can be in the figure is at most 10, whatever the
    day. It can be below the number of focus sessions finished today: when
    the table holds eleven sessions of the user that ended today, the page
    opened that day loads ten of them and the figure is 10. *)
Theorem C10_todayCount_capped_at_ten :
  (forall s today, visited s ->
     (length (history s) <= 10)%nat /\ (todayCount today (history s) <= 10)%nat)
  /\ (exists t0 u rows,
        length (filter (endsOn (JS.split0 "T" (JS.toISOString t0))) rows) = 11%nat
        /\ history (init t0 (Some u) rows) = firstn 10 rows
        /\ todayCount t0 (history (init t0 (Some u) rows)) = 10%nat).
Proof.
  split.
  - intros s today Hr. pose proof (Inv_visited s Hr) as [_ _ Hh].
    split; [exact Hh |].
    eapply Nat.le_trans; [apply todayCount_le_length | exact Hh].
  - exists (noon + 3600000), "u"%string, elevenSessions.
    split; [| split]; vm_compute; reflexivity.
Qed.

(** C7, evaluated on the code. A session that ended at 18:00 on
    2025-01-01 by a clock five hours behind UTC lies on the user's current
    calendar day when the page is opened at 20:00 that evening, yet it is
    not counted: [todayCount] compares the dates of the UTC renderings,
    which are 2025-01-01 and 2025-01-02. *)
Lemma C7_todayCount_compares_utc_dates :
  JS.localDay (-300) ended18 = JS.localDay (-300) now20
  /\ history reopened
     = [mkSession "7" "2025-01-01T22:35:00.000Z" (Some "2025-01-01T23:00:00.000Z"%string)]
  /\ JS.split0 "T" (JS.toISOString (clock reopened)) = "2025-01-02"%string
  /\ todayCount (clock reopened) (history reopened) = 0%nat.
Proof. repeat split; vm_compute; reflexivity. Qed.

(** ** When the focus start is stored *)

(** C3, evaluated on the code. A focus phase of 25 minutes runs out and
    the auto-start fires a second later: the timer is in a short break and
    a focus start is stored, because the delayed callback still sees the
    phase that ended. The start stays stored through the break and into the
    next focus phase. Conversely, skipping the focus phase, resuming the
    break by hand and skipping it leaves the timer in a focus phase with no
    start stored. *)
Lemma C3_focus_start_out_of_step_with_phase :
  (let s := run started (seconds 1500 ++ [Elapse 1000; Timeout]) in
   phase s = short /\ focusStartRef s = Some 1501000
   /\ (let s' := run s (seconds 300 ++ [Elapse 1000; Timeout]) in
       phase s' = focus /\ clock s' = 1802000 /\ focusStartRef s' = Some 1501000))
  /\ (let s := run started [KeyN atRender; Space; KeyN atRender] in
      phase s = focus /\ focusStartRef s = None).
Proof. repeat split; vm_compute; reflexivity. Qed.

(** ** The cycle of phases *)

(** C1, evaluated on the code. A signed-in user presses Space on the
    idle page and lets the focus phase of 25 minutes run out. The row is
    sent and the page is unmounted: what it showed last is the focus phase
    at 0 seconds, and neither the auto-start nor the seconds of a short
    break bring a break or a second focus phase. A visitor who is not
    signed in sees the four focus phases, three short breaks and the long
    break of the cycle. *)
Lemma C1_cycle_ends_with_the_first_focus_phase_of_a_signed_in_user :
  (let s := run (startedBy "u") (seconds 1500) in
   mounted s = false
   /\ inserted s = [mkRow "u" "2025-01-01T12:00:00.000Z" "2025-01-01T12:25:00.000Z"]
   /\ shown s = (focus, 0)
   /\ shown (run s ([Elapse 1000; Timeout] ++ seconds 300)) = (focus, 0)
   /\ map shown (expiries 7 (startedBy "u"))
      = [(focus, 0); (focus, 0); (focus, 0); (focus, 0);
         (focus, 0); (focus, 0); (focus, 0)])
  /\ map shown (started :: expiries 7 started)
     = [(focus, 1500); (short, 300); (focus, 1500); (short, 300);
        (focus, 1500); (short, 300); (focus, 1500); (long, 900)].
Proof. repeat split; vm_compute; reflexivity. Qed.

(** ** Rows sent to the table *)

(** Pressing Start or Space on the idle page. *)
Lemma start_idle s e :
  mounted s = true -> phase s = idle -> running s = false ->
  e = Toggle \/ e = Space ->
  step s e
  = setCaptured (config s)
      (setRunning true
         (setFocusStart (Some (clock s))
            (setRemaining (workMin (handlerConfig s e) * 60)
               (setPhase focus (setIntervalCount 0 s))))).
Proof.
  intros Hm Hp Hr He.
  assert (Hh : handle s e
               = setRunning true
                   (setFocusStart (Some (clock s))
                      (setRemaining (workMin (handlerConfig s e) * 60)
                         (setPhase focus (setIntervalCount 0 s))))).
  { destruct He as [-> | ->]; cbn [handle handlerConfig];
      rewrite toggle_paused, Hp by exact Hr; reflexivity. }
  rewrite step_renewed; rewrite ?Hh; auto.
  left. cbn. rewrite Hr. discriminate.
Qed.





(** ** Further properties of the handlers *)

Lemma handle_phase_idle s e :
  phase s <> idle -> phase (handle s e) = idle -> e = Reset.
Proof.
  intros Hne Hidle. destruct e; try reflexivity; exfalso; cbn [handle] in Hidle.
  - rewrite toggle_phase in Hidle.
    destruct (running s); [auto |]. destruct (phase s); congruence.
  - rewrite toggle_phase in Hidle.
    destruct (running s); [auto |]. destruct (phase s); congruence.
  - unfold next in Hidle. destruct (running s); [| auto].
    destruct (throws h s) eqn:Ht.
    + destruct (handlePhaseEnd_thrown (config s) h s Ht) as (_ & H2 & _). congruence.
    + destruct (handlePhaseEnd_cells (config s) h s Ht) as (H1 & _).
      rewrite H1 in Hidle. now apply nextPhase_not_idle in Hidle.
  - unfold next in Hidle. destruct (running s); [| auto].
    destruct (throws h s) eqn:Ht.
    + destruct (handlePhaseEnd_thrown (captured s) h s Ht) as (_ & H2 & _). congruence.
    + destruct (handlePhaseEnd_cells (captured s) h s Ht) as (H1 & _).
      rewrite H1 in Hidle. now apply nextPhase_not_idle in Hidle.
  - unfold tick in Hidle. destruct (running s); [| auto].
    destruct (remaining s <=? 1); [| auto].
    assert (P : phase (handlePhaseEnd (captured s) h (setRemaining 0 s)) = idle).
    { destruct r; [exact Hidle |]. destruct (awaits s); exact Hidle. }
    destruct (throws h (setRemaining 0 s)) eqn:Ht.
    + destruct (handlePhaseEnd_thrown (captured s) h _ Ht) as (_ & H2 & _).
      rewrite H2 in P. auto.
    + destruct (handlePhaseEnd_cells (captured s) h _ Ht) as (H1 & _).
      rewrite H1 in P. now apply nextPhase_not_idle in P.
  - destruct (fireTimeout_rest (captured s) s) as (H1 & _). congruence.
  - auto.
  - auto.
  - auto.
Qed.

(** X1. Only a reset brings the timer back to idle: from a phase other
    than idle no key press, button other than Reset, tick, auto-start,
    edit of an input, passage of time or change of user leaves the timer
    idle. *)
Theorem X1_only_reset_returns_to_idle s e :
  phase s <> idle -> phase (step s e) = idle -> e = Reset.
Proof.
  intros Hne Hidle. destruct (mounted s) eqn:Hm.
  - destruct (step_mounted s e Hm) as (c & E & _). rewrite E in Hidle.
    now apply (handle_phase_idle s e Hne).
  - rewrite step_unmounted in Hidle by exact Hm.
    destruct (aftermath_cells s e) as (H1 & _). congruence.
Qed.

Lemma X1_witness :
  phase (step started Reset) = idle
  /\ phase started <> idle
  /\ Reset = Reset.
Proof.
  assert (Hne : phase started <> idle) by (vm_compute; discriminate).
  assert (Hid : phase (step started Reset) = idle) by reflexivity.
  split; [exact Hid |]. split; [exact Hne |].
  exact (X1_only_reset_returns_to_idle started Reset Hne Hid).
Defined.

(** X2. A reset does not cancel a pending auto-start. When the callback
    fires after the reset it sets the idle timer running, with 0 seconds
    left, and stores a focus start if the phase it captured was a focus
    phase; the next tick stops the timer again, still idle, without
    sending a row, whenever React calls the queued functions. *)
Theorem X2_reset_keeps_pending_autostart cfg r h s p tos :
  timeouts s = p :: tos -> p <> idle ->
  phase (fireTimeout cfg (reset s)) = idle
  /\ running (fireTimeout cfg (reset s)) = true
  /\ remaining (fireTimeout cfg (reset s)) = 0
  /\ intervalCount (fireTimeout cfg (reset s)) = 0
  /\ focusStartRef (fireTimeout cfg (reset s))
     = (if Phase_eqb p focus then Some (clock s) else None)
  /\ phase (tick cfg r h (fireTimeout cfg (reset s))) = idle
  /\ running (tick cfg r h (fireTimeout cfg (reset s))) = false
  /\ remaining (tick cfg r h (fireTimeout cfg (reset s))) = 0
  /\ inserted (tick cfg r h (fireTimeout cfg (reset s))) = inserted s.
Proof.
  intros Ht Hp.
  assert (Ht' : timeouts (reset s) = p :: tos) by exact Ht.
  destruct (fireTimeout_cells cfg (reset s) p tos Ht' Hp)
    as (F1 & F2 & F3 & F4 & _ & F5).
  change (phase (reset s)) with idle in F1.
  change (remaining (reset s)) with 0 in F2.
  change (intervalCount (reset s)) with 0 in F3.
  assert (F5' : focusStartRef (fireTimeout cfg (reset s))
                = if Phase_eqb p focus then Some (clock s) else None).
  { rewrite F5. destruct p; [congruence | | |]; reflexivity. }
  assert (F6 : inserted (fireTimeout cfg (reset s)) = inserted s)
    by (now destruct (fireTimeout_rest cfg (reset s)) as (_ & _ & _ & -> & _)).
  remember (fireTimeout cfg (reset s)) as s1 eqn:E1. clear E1 F5.
  assert (Hth : throws h (setRemaining 0 s1) = false).
  { unfold throws. change (phase (setRemaining 0 s1)) with (phase s1).
    rewrite F1. now destruct h. }
  destruct (handlePhaseEnd_cells cfg h (setRemaining 0 s1) Hth)
    as (H1 & H2 & _ & H4 & _).
  change (phase (setRemaining 0 s1)) with (phase s1) in H1, H2.
  rewrite F1 in H1, H2.
  assert (H6 : inserted (handlePhaseEnd cfg h (setRemaining 0 s1)) = inserted s1).
  { rewrite handlePhaseEnd_inserted.
    change (phase (setRemaining 0 s1)) with (phase s1). now rewrite F1. }
  assert (Haw : awaits s1 = false) by (unfold awaits; now rewrite F1).
  assert (T : tick cfg r h s1
              = match r with
                | atRender => handlePhaseEnd cfg h (setRemaining 0 s1)
                | atDispatch => setRemaining 0 (handlePhaseEnd cfg h (setRemaining 0 s1))
                end).
  { rewrite tick_end by (auto; lia). now rewrite Haw. }
  rewrite T.
  split; [exact F1 |]. split; [exact F4 |]. split; [exact F2 |].
  split; [exact F3 |]. split; [exact F5' |].
  destruct r; cbn [phase running remaining inserted setRemaining];
    rewrite ?H1, ?H2, ?H4, ?H6; repeat split; assumption.
Qed.

Lemma X2_witness :
  timeouts (step started (KeyN atRender)) = [focus] /\ focus <> idle
  /\ running (fireTimeout defaults (reset (step started (KeyN atRender)))) = true
  /\ phase (fireTimeout defaults (reset (step started (KeyN atRender)))) = idle.
Proof.
  assert (Ht : timeouts (step started (KeyN atRender)) = [focus]) by reflexivity.
  assert (Hp : focus <> idle) by discriminate.
  destruct (X2_reset_keeps_pending_autostart defaults atRender atRender _ focus [] Ht Hp)
    as (H1 & H2 & _).
  repeat split; assumption.
Defined.

(** The callback of a timeout on a stopped timer. *)
Lemma timeout_step s p tos :
  mounted s = true -> running s = false -> timeouts s = p :: tos -> p <> idle ->
  step s Timeout = setCaptured (config s) (fireTimeout (captured s) s).
Proof.
  intros Hm Hr Ht Hp.
  destruct (fireTimeout_cells (captured s) s p tos Ht Hp) as (_ & _ & _ & F4 & _).
  destruct (fireTimeout_rest (captured s) s)
    as (_ & _ & _ & _ & _ & _ & _ & R8 & _ & R10).
  rewrite step_renewed; cbn [handle]; rewrite ?R8, ?R10; auto.
  left. rewrite F4, Hr. discriminate.
Qed.

(** X3. Every phase end that leaves the page mounted is followed by an
    automatic start. When a phase other than idle ends (skip or expiry)
    with no other auto-start pending, the timer stops, exactly one
    auto-start is pending, a focus phase has given way to a break and a
    break to a focus phase, and the seconds left are the duration the
    handler's configuration gives the new phase, or 0 when the interval's
    function was called at dispatch and [handlePhaseEnd] did not wait; when
    the callback fires, the timer runs again in that next phase with the
    seconds it was left with. *)
Theorem X3_phase_end_then_autostart s e :
  endsPhase s e = true -> phase s <> idle -> timeouts s = [] ->
  mounted (step s e) = true ->
  running (step s e) = false
  /\ timeouts (step s e) = [phase s]
  /\ (phase s = focus ->
      phase (step s e) = short \/ phase (step s e) = long)
  /\ (phase s <> focus -> phase (step s e) = focus)
  /\ remaining (step s e)
     = (if endsAtZero s e then 0
        else duration (handlerConfig s e) (phase (step s e)))
  /\ running (step (step s e) Timeout) = true
  /\ phase (step (step s e) Timeout) = phase (step s e)
  /\ remaining (step (step s e) Timeout) = remaining (step s e)
  /\ timeouts (step (step s e) Timeout) = [].
Proof.
  intros He Hp Ht Hm.
  assert (Hth : throws (historyCall e) s = false).
  { rewrite (endsPhase_mounted s e He) in Hm.
    now destruct (throws (historyCall e) s). }
  destruct (endsPhase_cells s e He Hth) as (H1 & H2 & _ & H4 & H5 & _).
  rewrite Ht in H5. change ([] ++ [phase s]) with [phase s] in H5.
  rewrite (timeout_step (step s e) (phase s) [] Hm H4 H5 Hp).
  destruct (fireTimeout_cells (captured (step s e)) (step s e) (phase s) [] H5 Hp)
    as (F1 & F2 & _ & F4 & F5 & _).
  cbn [running phase remaining timeouts setCaptured].
  rewrite F1, F2, F4, F5.
  split; [exact H4 |]. split; [exact H5 |].
  split; [| split; [| split; [exact H2 | repeat split]]].
  - intros Hf. rewrite H1, Hf. cbn.
    destruct (breakAfter_cases (handlerConfig s e) (intervalCount s + 1)); auto.
  - intros Hf. rewrite H1. destruct (phase s); cbn; congruence.
Qed.

Lemma X3_witness :
  endsPhase started (KeyN atRender) = true /\ phase started <> idle
  /\ timeouts started = []
  /\ mounted (step started (KeyN atRender)) = true
  /\ running (step started (KeyN atRender)) = false
  /\ running (step (step started (KeyN atRender)) Timeout) = true.
Proof.
  assert (He : endsPhase started (KeyN atRender) = true) by reflexivity.
  assert (Hp : phase started <> idle) by (vm_compute; discriminate).
  assert (Ht : timeouts started = []) by reflexivity.
  assert (Hm : mounted (step started (KeyN atRender)) = true) by reflexivity.
  destruct (X3_phase_end_then_autostart started (KeyN atRender) He Hp Ht Hm)
    as (H1 & _ & _ & _ & _ & H5 & _).
  repeat split; assumption.
Defined.

(** ** The countdown *)



(** ** The count and the phase *)

(** X5. With a valid configuration of cycle length N, in every reachable
    state the count of completed intervals is a multiple of N during a long
    break and is not during a short break. The Cycle tile then reads k/N
    with k between 1 and N in a focus phase, between 1 and N-1 in a short
    break and 0 in a long break. *)
Theorem X5_cycle_tile_in_step cfg s :
  ValidConfig cfg -> reachable cfg s ->
  (phase s = long -> (intervalsBeforeLong cfg | intervalCount s))
  /\ (phase s = short -> ~ (intervalsBeforeLong cfg | intervalCount s))
  /\ (phase s <> idle ->
      exists k,
        cycleTile cfg s
        = (JS.String_of k ++ "/" ++ JS.String_of (intervalsBeforeLong cfg))%string
        /\ 0 <= k <= intervalsBeforeLong cfg
        /\ (phase s = focus -> 1 <= k)
        /\ (phase s = short -> 1 <= k < intervalsBeforeLong cfg)
        /\ (phase s = long -> k = 0)).
Proof.
  intros Hv Hr.
  destruct (InStep_reachable cfg Hv s Hr) as [HL HS].
  destruct (Inv_visited s (reachable_visited cfg s Hr)) as [Hc _ _].
  split; [exact HL | split; [exact HS |]]. intros Hp.
  assert (HN : intervalsBeforeLong cfg <> 0) by (destruct Hv; lia).
  assert (Hrem : JS.rem (intervalCount s) (intervalsBeforeLong cfg)
                 = Some (Z.rem (intervalCount s) (intervalsBeforeLong cfg))).
  { unfold JS.rem. destruct (intervalsBeforeLong cfg =? 0) eqn:E; [| reflexivity].
    apply Z.eqb_eq in E. contradiction. }
  assert (Hb : 0 <= Z.rem (intervalCount s) (intervalsBeforeLong cfg)
               < intervalsBeforeLong cfg).
  { rewrite Z.rem_mod_nonneg by (destruct Hv; lia).
    apply Z.mod_pos_bound. destruct Hv; lia. }
  pose proof (Z.rem_divide (intervalCount s) (intervalsBeforeLong cfg) HN) as Hd.
  exists (Z.rem (intervalCount s) (intervalsBeforeLong cfg)
          + if Phase_eqb (phase s) focus then 1 else 0).
  unfold cycleTile. rewrite Hrem.
  destruct (phase s) eqn:E; [congruence | | |]; cbn [Phase_eqb];
    (split; [reflexivity |]); repeat split; try lia; try discriminate.
  - assert (Z.rem (intervalCount s) (intervalsBeforeLong cfg) <> 0)
      by (intros Z0; apply HS; [first [exact E | reflexivity] | now apply Hd]).
    lia.
  - intros _. assert (Z.rem (intervalCount s) (intervalsBeforeLong cfg) = 0)
      by (apply Hd, HL; first [exact E | reflexivity]).
    lia.
Qed.

Lemma X5_witness :
  ValidConfig defaults
  /\ reachable defaults (run started (seconds 1500))
  /\ phase (run started (seconds 1500)) = short
  /\ ~ (intervalsBeforeLong defaults | intervalCount (run started (seconds 1500))).
Proof.
  assert (Hr : reachable defaults (run started (seconds 1500))).
  { apply reachable_run; [| vm_compute; reflexivity].
    unfold started, init. repeat constructor. }
  assert (Hp : phase (run started (seconds 1500)) = short)
    by (vm_compute; reflexivity).
  destruct (X5_cycle_tile_in_step defaults _ ValidConfig_defaults Hr) as (_ & HS & _).
  split; [exact ValidConfig_defaults |]. split; [exact Hr |]. split; [exact Hp |].
  exact (HS Hp).
Defined.

(** X6. The Next Break tile announces the break that follows, as long as
    the handler that ends the focus phase sees the cycle length the tile
    shows: whenever a focus phase ends, by skip or by expiry, and the page
    stays mounted, the tile read Long and the timer enters the long break,
    or it read Short and the timer enters the short break. *)
Theorem X6_next_break_tile_is_right s e :
  completesFocus s e = true -> mounted (step s e) = true ->
  intervalsBeforeLong (handlerConfig s e) = intervalsBeforeLong (config s) ->
  (nextBreakTile (config s) s = "Long"%string /\ phase (step s e) = long)
  \/ (nextBreakTile (config s) s = "Short"%string /\ phase (step s e) = short).
Proof.
  intros Hc Hm HN. destruct (completesFocus_endsPhase s e Hc) as [He Hf].
  assert (Hth : throws (historyCall e) s = false).
  { rewrite (endsPhase_mounted s e He) in Hm.
    now destruct (throws (historyCall e) s). }
  destruct (endsPhase_cells s e He Hth) as (H1 & _).
  rewrite H1, Hf. unfold nextBreakTile, nextPhase, breakAfter. rewrite Hf, HN.
  destruct (JS.rem (intervalCount s + 1) (intervalsBeforeLong (config s)))
    as [[|q|q]|]; auto.
Qed.

Lemma X6_witness :
  completesFocus started (KeyN atRender) = true
  /\ mounted (step started (KeyN atRender)) = true
  /\ intervalsBeforeLong (handlerConfig started (KeyN atRender))
     = intervalsBeforeLong (config started)
  /\ nextBreakTile (config started) started = "Short"%string
  /\ phase (step started (KeyN atRender)) = short.
Proof.
  assert (He : completesFocus started (KeyN atRender) = true) by reflexivity.
  assert (Hm : mounted (step started (KeyN atRender)) = true) by reflexivity.
  assert (HN : intervalsBeforeLong (handlerConfig started (KeyN atRender))
               = intervalsBeforeLong (config started)) by reflexivity.
  destruct (X6_next_break_tile_is_right started (KeyN atRender) He Hm HN)
    as [[H _] | [H1 H2]].
  - discriminate H.
  - repeat split; assumption.
Defined.

(** ** The history list and the rows sent *)

(** Steps that do not end a phase leave history and table alone. *)
Lemma step_history_other s e :
  endsPhase s e = false -> history (step s e) = history s.
Proof.
  intros He. apply step_cases.
  - intros c x H. exact H.
  - intros Hm. revert He. unfold endsPhase. rewrite Hm. cbn [andb].
    destruct e; cbn [handle]; intros He; try reflexivity.
    + now destruct (toggle_rest (config s) s) as (_ & -> & _).
    + now destruct (toggle_rest (captured s) s) as (_ & -> & _).
    + unfold next. now rewrite He.
    + unfold next. now rewrite He.
    + unfold tick. destruct (running s); [| reflexivity].
      cbn in He. now rewrite He.
    + now destruct (fireTimeout_rest (captured s) s) as (_ & _ & _ & _ & -> & _).
  - intros _. now destruct (aftermath_cells s e) as (_ & _ & _ & _ & -> & _).
Qed.

Lemma endsPhase_completesFocus s e :
  endsPhase s e = false -> completesFocus s e = false.
Proof.
  unfold endsPhase, completesFocus. destruct (mounted s); [| reflexivity].
  cbn [andb]. destruct e; auto; intros H.
  - rewrite H. apply andb_false_r.
  - rewrite H. apply andb_false_r.
  - destruct (running s); cbn in *; [rewrite H |]; now rewrite ?andb_false_r.
Qed.

Lemma Recorded_step s e : mounted (step s e) = true -> Recorded s (step s e).
Proof.
  intros Hm. destruct (endsPhase s e) eqn:He.
  - assert (Hth : throws (historyCall e) s = false).
    { rewrite (endsPhase_mounted s e He) in Hm.
      now destruct (throws (historyCall e) s). }
    destruct (endsPhase_world s e He) as (_ & _ & _ & W4 & _ & W6 & _).
    unfold Recorded. rewrite W4, W6. revert Hth. unfold throws.
    destruct (historyCall e), (phase s), (focusStartRef s), (getUserOrWarn s);
      auto; try discriminate.
    intros _. right. eexists. eexists. repeat split.
  - left. split; [now apply step_history_other |].
    apply step_inserted_other. now apply endsPhase_completesFocus.
Qed.

Lemma firstn_10_cons_firstn {A} (x : A) l :
  firstn 10 (x :: firstn 10 l) = firstn 10 (x :: l).
Proof.
  rewrite !firstn_cons. f_equal. rewrite firstn_firstn. reflexivity.
Qed.

Lemma history_run es : forall s loaded,
  map sessionTimes (history s)
  = firstn 10 (map rowTimes (inserted s) ++ loaded) ->
  mounted (run s es) = true ->
  map sessionTimes (history (run s es))
  = firstn 10 (map rowTimes (inserted (run s es)) ++ loaded).
Proof.
  induction es as [|e es IH]; intros s loaded H Hm; [exact H |].
  cbn [run fold_left] in *. apply IH; [| exact Hm].
  assert (Hm1 : mounted (step s e) = true) by (now apply (mounted_run es)).
  destruct (Recorded_step s e Hm1) as [[-> ->] | (new & row & -> & -> & Hn)]; auto.
  rewrite <- firstn_map. cbn [map]. rewrite H, Hn.
  apply firstn_10_cons_firstn.
Qed.

(** X7. As long as the page is mounted, the history list shows the ten
    most recent sessions of this visit and of the table: it agrees, session
    by session in start and end, with the first ten of the rows sent since
    the page was opened (newest first) followed by what was loaded at
    mount. *)
Theorem X7_history_is_ten_most_recent t0 u rows es :
  mounted (run (init t0 u rows) es) = true ->
  map sessionTimes (history (run (init t0 u rows) es))
  = firstn 10 (map rowTimes (inserted (run (init t0 u rows) es))
               ++ map sessionTimes (loadHistory u rows)).
Proof.
  apply history_run. cbn [init configured history inserted map app].
  symmetry. apply firstn_all2. rewrite length_map.
  unfold loadHistory. destruct u; [apply firstn_10_length | cbn; lia].
Qed.

Lemma X7_witness :
  mounted (run (init noon (Some "u"%string) []) [Space; KeyN atDispatch]) = true
  /\ map sessionTimes
       (history (run (init noon (Some "u"%string) []) [Space; KeyN atDispatch]))
     = [("2025-01-01T12:00:00.000Z"%string, Some "2025-01-01T12:00:00.000Z"%string)].
Proof.
  assert (Hm : mounted (run (init noon (Some "u"%string) []) [Space; KeyN atDispatch])
               = true) by (vm_compute; reflexivity).
  pose proof (X7_history_is_ten_most_recent noon (Some "u"%string) []
                [Space; KeyN atDispatch] Hm) as H.
  split; [exact Hm |].
  rewrite H. vm_compute. reflexivity.
Defined.

(** A stored focus start is never later than the clock. *)
Lemma Timely_handle s e : Timely s -> Timely (handle s e).
Proof.
  unfold Timely. intros HT. destruct e; cbn [handle].
  - unfold toggle. destruct (running s); [exact HT |].
    destruct (phase s); cbn; auto; intros t [= <-]; lia.
  - unfold toggle. destruct (running s); [exact HT |].
    destruct (phase s); cbn; auto; intros t [= <-]; lia.
  - unfold next. destruct (running s); [| exact HT].
    intros t. rewrite handlePhaseEnd_focusStart.
    destruct (handlePhaseEnd_world (config s) h s) as (-> & _).
    destruct (phase s); auto; discriminate.
  - unfold next. destruct (running s); [| exact HT].
    intros t. rewrite handlePhaseEnd_focusStart.
    destruct (handlePhaseEnd_world (captured s) h s) as (-> & _).
    destruct (phase s); auto; discriminate.
  - discriminate.
  - unfold tick. destruct (running s); [| exact HT].
    destruct (remaining s <=? 1); [| exact HT].
    assert (H0 : forall t,
              focusStartRef (handlePhaseEnd (captured s) h (setRemaining 0 s)) = Some t ->
              t <= clock (handlePhaseEnd (captured s) h (setRemaining 0 s))).
    { intros t. rewrite handlePhaseEnd_focusStart.
      destruct (handlePhaseEnd_world (captured s) h (setRemaining 0 s)) as (-> & _).
      cbn. destruct (phase s); auto; discriminate. }
    destruct r; [exact H0 |]. destruct (awaits s); exact H0.
  - unfold fireTimeout. destruct (timeouts s) as [|p tos]; [exact HT |].
    destruct p; cbn; auto; intros t [= <-]; lia.
  - exact HT.
  - intros t Ht. cbn in *. specialize (HT t Ht). lia.
  - exact HT.
Qed.

Lemma Timely_step s e : Timely s -> Timely (step s e).
Proof.
  intros HT. apply step_cases.
  - intros c x H. exact H.
  - intros _. now apply Timely_handle.
  - intros _. unfold Timely in *. destruct e; cbn [aftermath]; auto.
    + destruct (timeouts s) as [|p tos]; [exact HT |].
      destruct p; cbn; auto; intros t [= <-]; lia.
    + intros t Ht. cbn in *. specialize (HT t Ht). lia.
Qed.

Lemma Timely_visited s : visited s -> Timely s.
Proof. induction 1; auto using Timely_step. discriminate. Qed.

(** X8. With a clock that does not run backwards, a stored focus start
    is never later than the current time; so the row sent when a focus
    phase ends is written for two instants, the stored start and the
    current time, of which the first is not after the second: no session is
    recorded with a negative length. *)
Theorem X8_rows_never_end_before_they_start s :
  visited s ->
  (forall t, focusStartRef s = Some t -> t <= clock s)
  /\ (forall e u a,
        completesFocus s e = true -> getUserOrWarn s = Some u ->
        focusStartRef s = Some a ->
        inserted (step s e)
        = mkRow u (JS.toISOString a) (JS.toISOString (clock s)) :: inserted s
        /\ a <= clock s).
Proof.
  intros Hv. pose proof (Timely_visited s Hv) as HT. split; [exact HT |].
  intros e u a He Hu Ha. split; [| now apply HT].
  now rewrite (step_inserted_focus s e He), Ha, Hu.
Qed.

Lemma X8_witness :
  visited (run (startedBy "u") (seconds 1499))
  /\ focusStartRef (run (startedBy "u") (seconds 1499)) = Some noon
  /\ noon <= clock (run (startedBy "u") (seconds 1499)).
Proof.
  assert (Hv : visited (run (startedBy "u") (seconds 1499))).
  { apply visited_run. unfold startedBy, init. repeat constructor. }
  assert (Hf : focusStartRef (run (startedBy "u") (seconds 1499)) = Some noon)
    by (vm_compute; reflexivity).
  split; [exact Hv |]. split; [exact Hf |].
  exact (proj1 (X8_rows_never_end_before_they_start _ Hv) noon Hf).
Defined.

(** ** The session just finished and the "Focus Today" figure *)

Lemma length_append (s1 s2 : string) :
  String.length (s1 ++ s2) = (String.length s1 + String.length s2)%nat.
Proof. induction s1 as [|a s1 IH]; cbn; [reflexivity | now rewrite IH]. Qed.

Lemma padStart0_length w : forall n, String.length (JS.padStart0 w n) = w.
Proof.
  induction w as [|w IH]; intros n; cbn; [reflexivity |].
  rewrite length_append, IH. cbn. lia.
Qed.

(** [toISOString] yields at least 24 characters. *)
Lemma toISOString_length t : (24 <= String.length (JS.toISOString t))%nat.
Proof.
  unfold JS.toISOString. destruct (JS.civil (t / JS.msPerDay)) as [[y m] d].
  rewrite !length_append, !padStart0_length.
  assert (4 <= String.length (JS.isoYear y))%nat; [| cbn [String.length]; lia].
  unfold JS.isoYear. destruct ((0 <=? y) && (y <=? 9999)).
  - now rewrite padStart0_length.
  - rewrite length_append. unfold JS.padStart. rewrite length_append.
    assert (L : forall k, String.length (JS.zeros k) = k)
      by (induction k as [|k IH]; cbn; [reflexivity | now rewrite IH]).
    rewrite L. lia.
Qed.

Lemma endsOn_own_date t i st :
  endsOn (JS.split0 "T" (JS.toISOString t))
         (mkSession i st (Some (JS.toISOString t))) = true.
Proof.
  unfold endsOn. cbn [end_at].
  pose proof (toISOString_length t) as L.
  destruct (JS.toISOString t) as [|a r]; [cbn in L; lia |].
  apply String.eqb_refl.
Qed.

(** X9. What the end of a focus phase does for a signed-in user with a
    stored start. The row is sent in every case. When React calls the
    function given to [setHistory] at render, the page is unmounted: the
    phase, the count and the history it showed last are those from before
    the end. When React calls it at dispatch, the page stays, the history
    begins with the session just finished (its start and the current time,
    as ISO strings) and the "Focus Today" figure computed at that moment is
    at least 1. *)
Theorem X9_focus_end_of_a_signed_in_user s e start user :
  completesFocus s e = true ->
  focusStartRef s = Some start -> getUserOrWarn s = Some user ->
  inserted (step s e)
  = mkRow user (JS.toISOString start) (JS.toISOString (clock s)) :: inserted s
  /\ (historyCall e = atRender ->
      mounted (step s e) = false
      /\ phase (step s e) = focus
      /\ intervalCount (step s e) = intervalCount s
      /\ history (step s e) = history s)
  /\ (historyCall e = atDispatch ->
      mounted (step s e) = true
      /\ hd_error (history (step s e))
         = Some (mkSession (JS.String_of (clock s)) (JS.toISOString start)
                           (Some (JS.toISOString (clock s))))
      /\ (1 <= todayCount (clock s) (history (step s e)))%nat).
Proof.
  intros Hc Hs Hu. destruct (completesFocus_endsPhase s e Hc) as [He Hf].
  split; [| split].
  - now rewrite (step_inserted_focus s e Hc), Hs, Hu.
  - intros Hh.
    assert (Ht : throws (historyCall e) s = true)
      by (unfold throws; now rewrite Hh, Hf, Hs, Hu).
    destruct (endsPhase_thrown s e He Ht) as (H1 & H2 & _ & H4 & _ & H6).
    rewrite H2, Hf. repeat split; assumption.
  - intros Hh.
    assert (Ht : throws (historyCall e) s = false)
      by (unfold throws; now rewrite Hh).
    destruct (endsPhase_cells s e He Ht) as (_ & _ & _ & _ & _ & H6).
    destruct (endsPhase_world s e He) as (_ & _ & _ & _ & _ & W6 & _).
    rewrite Hh, Hf, Hs, Hu in W6. rewrite W6, firstn_cons.
    split; [exact H6 |]. split; [reflexivity |].
    unfold todayCount. cbn [filter]. rewrite endsOn_own_date. cbn [length]. lia.
Qed.

Lemma X9_witness :
  completesFocus (startedBy "u") (KeyN atRender) = true
  /\ focusStartRef (startedBy "u") = Some noon
  /\ getUserOrWarn (startedBy "u") = Some "u"%string
  /\ mounted (step (startedBy "u") (KeyN atRender)) = false
  /\ mounted (step (startedBy "u") (KeyN atDispatch)) = true
  /\ (1 <= todayCount noon (history (step (startedBy "u") (KeyN atDispatch))))%nat.
Proof.
  assert (He : completesFocus (startedBy "u") (KeyN atRender) = true) by reflexivity.
  assert (He' : completesFocus (startedBy "u") (KeyN atDispatch) = true) by reflexivity.
  assert (Hs : focusStartRef (startedBy "u") = Some noon) by reflexivity.
  assert (Hu : getUserOrWarn (startedBy "u") = Some "u"%string) by reflexivity.
  destruct (X9_focus_end_of_a_signed_in_user _ (KeyN atRender) noon "u" He Hs Hu)
    as (_ & H1 & _).
  destruct (X9_focus_end_of_a_signed_in_user _ (KeyN atDispatch) noon "u" He' Hs Hu)
    as (_ & _ & H2).
  destruct (H1 eq_refl) as (M1 & _). destruct (H2 eq_refl) as (M2 & _ & T2).
  split; [exact He |]. split; [exact Hs |]. split; [exact Hu |].
  split; [exact M1 |]. split; [exact M2 | exact T2].
Defined.

(** ** Focus lengths that are not positive *)

Lemma edit_step s i parsed :
  mounted s = true ->
  step s (Edit i parsed) = setConfig (edit i parsed (config s)) s.
Proof. intros Hm. now apply step_quiet. Qed.

(** X10. The minutes inputs store 1 for text that does not parse and for
    0, and any other number as typed, negative ones included. With a
    negative focus length entered on the idle page, the Start button leaves
    a negative number of seconds, and the first tick ends the focus phase
    and, for a visitor who is not signed in, counts one completed interval.
    The Space key does not see the edit: it starts the focus phase with the
    focus length the key listener has kept. *)
Theorem X10_negative_focus_length s n r h :
  n < 0 -> mounted s = true -> phase s = idle -> running s = false ->
  (forall parsed, orOne parsed <> 0)
  /\ orOne (Some n) = n
  /\ remaining (step (step s (Edit focusInput (Some n))) Toggle) = n * 60
  /\ completesFocus (step (step s (Edit focusInput (Some n))) Toggle) (Tick r h)
     = true
  /\ (authUser s = None ->
      intervalCount
        (step (step (step s (Edit focusInput (Some n))) Toggle) (Tick r h)) = 1)
  /\ remaining (step (step s (Edit focusInput (Some n))) Space)
     = workMin (captured s) * 60.
Proof.
  intros Hn Hm Hp Hr.
  assert (Ho : orOne (Some n) = n) by (destruct n; [lia | lia | reflexivity]).
  rewrite (edit_step s _ _ Hm). cbn [edit]. rewrite Ho.
  set (s0 := setConfig (setWorkMin n (config s)) s).
  rewrite (start_idle s0 Toggle Hm Hp Hr (or_introl eq_refl)).
  rewrite (start_idle s0 Space Hm Hp Hr (or_intror eq_refl)).
  cbn [handlerConfig config captured workMin setWorkMin s0 setConfig].
  set (s1 := setCaptured _ _).
  assert (Hc : completesFocus s1 (Tick r h) = true).
  { unfold completesFocus, s1. cbn. rewrite Hm. cbn. apply Z.leb_le. lia. }
  split; [intros [[|q|q]|]; discriminate |].
  split; [reflexivity |]. split; [reflexivity |]. split; [exact Hc |].
  split; [| reflexivity].
  intros Hu. destruct (completesFocus_endsPhase s1 _ Hc) as [He Hf].
  assert (Ht : throws (historyCall (Tick r h)) s1 = false).
  { unfold throws, getUserOrWarn, s1. cbn. rewrite Hu. now destruct h. }
  destruct (endsPhase_cells s1 _ He Ht) as (_ & _ & H3 & _).
  rewrite H3. reflexivity.
Qed.

Lemma X10_witness :
  -5 < 0 /\ mounted (init 0 None []) = true
  /\ shown (step (step (init 0 None []) (Edit focusInput (Some (-5)))) Toggle)
     = (focus, -300)
  /\ intervalCount
       (step (step (step (init 0 None []) (Edit focusInput (Some (-5)))) Toggle)
             (Tick atRender atRender)) = 1
  /\ shown (step (step (init 0 None []) (Edit focusInput (Some (-5)))) Space)
     = (focus, 1500).
Proof.
  assert (Hn : -5 < 0) by reflexivity.
  destruct (X10_negative_focus_length (init 0 None []) (-5) atRender atRender
              Hn eq_refl eq_refl eq_refl)
    as (_ & _ & _ & _ & H & _).
  split; [exact Hn |]. split; [reflexivity |]. split; [reflexivity |].
  split; [exact (H eq_refl) | reflexivity].
Defined.

(** ** The clock face *)

Section ClockFace.

Lemma zeros_length k : String.length (JS.zeros k) = k.
Proof. induction k as [|k IH]; cbn; [reflexivity | now rewrite IH]. Qed.

Lemma padStart_length w s :
  String.length (JS.padStart w s) = Nat.max w (String.length s).
Proof. unfold JS.padStart. rewrite length_append, zeros_length. lia. Qed.

Lemma readNat_zero_front s : JS.readNat (String "0" s) = JS.readNat s.
Proof.
  unfold JS.readNat. cbn [NilEmpty.uint_of_string].
  destruct (NilEmpty.uint_of_string s) as [d |]; reflexivity.
Qed.

Lemma readNat_zeros k s : JS.readNat (JS.zeros k ++ s) = JS.readNat s.
Proof.
  induction k as [|k IH]; [reflexivity |].
  cbn [JS.zeros append]. now rewrite readNat_zero_front.
Qed.

(** Reading a printed number back gives the number. *)
Lemma readNat_String_of n : 0 <= n -> JS.readNat (JS.String_of n) = Some n.
Proof.
  intros Hn. destruct n as [|p|p]; [reflexivity | | lia].
  unfold JS.String_of, JS.readNat. cbn [Z.to_int NilZero.string_of_int].
  unfold NilZero.string_of_uint.
  pose proof (DecimalPos.Unsigned.to_uint_nonnil p) as Hnil.
  destruct (Pos.to_uint p) as [|d|d|d|d|d|d|d|d|d|d] eqn:E; [congruence | ..];
    rewrite <- E, NilEmpty.usu; cbn [option_map]; unfold Z.of_uint;
    now rewrite DecimalPos.Unsigned.of_to.
Qed.

Lemma readNat_pad2 n :
  0 <= n -> JS.readNat (JS.padStart 2 (JS.String_of n)) = Some n.
Proof.
  intros Hn. unfold JS.padStart. now rewrite readNat_zeros, readNat_String_of.
Qed.

Lemma pad2_inj a b :
  0 <= a -> 0 <= b ->
  JS.padStart 2 (JS.String_of a) = JS.padStart 2 (JS.String_of b) -> a = b.
Proof.
  intros Ha Hb E. apply (f_equal JS.readNat) in E.
  rewrite !readNat_pad2 in E by assumption. congruence.
Qed.

(** A number below 100 fills its field exactly. *)
Lemma pad2_length n :
  0 <= n < 100 -> String.length (JS.padStart 2 (JS.String_of n)) = 2%nat.
Proof.
  intros Hn.
  assert (Hall : forallb (fun k => String.length
                    (JS.padStart 2 (JS.String_of (Z.of_nat k))) =? 2)%nat
                   (seq 0 100) = true) by (vm_compute; reflexivity).
  rewrite forallb_forall in Hall.
  specialize (Hall (Z.to_nat n)). rewrite Z2Nat.id in Hall by lia.
  apply Nat.eqb_eq, Hall, in_seq. lia.
Qed.

(** Strings that agree and end in parts of equal length agree part by
    part. *)
Lemma append_inj x : forall x' y y',
  String.length y = String.length y' ->
  (x ++ y = x' ++ y')%string -> x = x' /\ y = y'.
Proof.
  induction x as [|a x IH]; intros [|a' x'] y y' L E; cbn in E.
  - now split.
  - exfalso. apply (f_equal String.length) in E. cbn in E.
    rewrite length_append in E. lia.
  - exfalso. apply (f_equal String.length) in E. cbn in E.
    rewrite length_append in E. lia.
  - injection E as -> E. destruct (IH x' y y' L E) as [-> ->]. now split.
Qed.

Lemma fmt_parts secs :
  0 <= secs ->
  0 <= Z.rem secs 60 < 60 /\ 0 <= Z.rem (secs / 60) 60 < 60
  /\ 0 <= secs / 3600
  /\ secs = 3600 * (secs / 3600) + 60 * Z.rem (secs / 60) 60 + Z.rem secs 60.
Proof.
  intros H.
  assert (H60 : 0 <= secs / 60) by (apply Z.div_pos; lia).
  rewrite !Z.rem_mod_nonneg by lia.
  assert (E : secs / 3600 = secs / 60 / 60)
    by (rewrite Z.div_div by lia; reflexivity).
  pose proof (Z.div_mod secs 60 ltac:(lia)) as D1.
  pose proof (Z.mod_pos_bound secs 60 ltac:(lia)) as B1.
  pose proof (Z.div_mod (secs / 60) 60 ltac:(lia)) as D2.
  pose proof (Z.mod_pos_bound (secs / 60) 60 ltac:(lia)) as B2.
  assert (0 <= secs / 60 / 60) by (apply Z.div_pos; lia).
  rewrite E. repeat split; lia.
Qed.

End ClockFace.

Lemma append_assoc (x y z : string) : ((x ++ y) ++ z = x ++ y ++ z)%string.
Proof. induction x as [|a x IH]; cbn; [reflexivity | now rewrite IH]. Qed.

(** X11. On whole seconds from 0 on, the clock face is unambiguous and
    has a fixed width: two different numbers of seconds never print the
    same text; below one hour the text is the five characters MM:SS, from
    one hour on it has the hours in front and at least eight characters. *)
Theorem X11_fmt_unambiguous a b :
  0 <= a -> 0 <= b ->
  (fmt a = fmt b -> a = b)
  /\ (a < 3600 ->
      fmt a = (JS.padStart 2 (JS.String_of (a / 60)) ++ ":"
               ++ JS.padStart 2 (JS.String_of (a mod 60)))%string
      /\ String.length (fmt a) = 5%nat)
  /\ (3600 <= a -> (8 <= String.length (fmt a))%nat).
Proof.
  intros Ha Hb.
  destruct (fmt_parts a Ha) as (Sa & Ma & Ga & Ea).
  destruct (fmt_parts b Hb) as (Sb & Mb & Gb & Eb).
  assert (Ltail : forall m s, 0 <= m < 60 -> 0 <= s < 60 ->
            String.length (JS.padStart 2 (JS.String_of m) ++ ":"
                           ++ JS.padStart 2 (JS.String_of s)) = 5%nat).
  { intros m s Hm Hs. rewrite !length_append, !pad2_length by lia. reflexivity. }
  split; [| split].
  - intros E. unfold fmt in E. cbv zeta in E.
    apply append_inj in E; [| now rewrite !Ltail].
    destruct E as [EP ET].
    apply append_inj in ET;
      [| cbn [append String.length]; now rewrite !pad2_length by lia].
    destruct ET as [EM ES]. injection ES as ES.
    apply pad2_inj in EM; [| lia | lia]. apply pad2_inj in ES; [| lia | lia].
    assert (EH : a / 3600 = b / 3600).
    { destruct (0 <? a / 3600) eqn:La; destruct (0 <? b / 3600) eqn:Lb.
      - apply append_inj in EP; [| reflexivity].
        destruct EP as [EP _]. apply pad2_inj in EP; lia.
      - apply (f_equal String.length) in EP.
        rewrite length_append, padStart_length in EP. cbn in EP. lia.
      - apply (f_equal String.length) in EP.
        rewrite length_append, padStart_length in EP. cbn in EP. lia.
      - apply Z.ltb_ge in La, Lb. lia. }
    lia.
  - intros Hlt.
    assert (H0 : a / 3600 = 0) by (apply Z.div_small; lia).
    assert (Hm : Z.rem (a / 60) 60 = a / 60).
    { apply Z.rem_small. split; [apply Z.div_pos; lia |].
      apply Z.div_lt_upper_bound; lia. }
    assert (Hs : Z.rem a 60 = a mod 60) by (apply Z.rem_mod_nonneg; lia).
    unfold fmt. cbv zeta. rewrite H0. cbn [Z.ltb Z.compare append].
    rewrite Hm, Hs. split; [reflexivity |].
    apply Ltail; [lia |]. apply Z.mod_pos_bound. lia.
  - intros Hge.
    assert (H1 : 0 < a / 3600) by (apply Z.div_str_pos; lia).
    unfold fmt. cbv zeta. apply Z.ltb_lt in H1. rewrite H1.
    rewrite !append_assoc, !length_append, !padStart_length.
    cbn [String.length]. lia.
Qed.

Lemma X11_witness :
  0 <= 1500 /\ 0 <= 3600
  /\ fmt 1500 = "25:00"%string /\ (8 <= String.length (fmt 3600))%nat.
Proof.
  assert (Ha : 0 <= 1500) by discriminate.
  assert (Hb : 0 <= 3600) by discriminate.
  destruct (X11_fmt_unambiguous 1500 3600 Ha Hb) as (_ & H1 & _).
  destruct (X11_fmt_unambiguous 3600 1500 Hb Ha) as (_ & _ & H2).
  split; [exact Ha |]. split; [exact Hb |].
  split; [exact (proj1 (H1 eq_refl)) | exact (H2 ltac:(discriminate))].
Defined.

(** X12. The two formatters of the repository agree on the safe
    integers. For a span of at least 0 milliseconds that a [number] holds
    exactly, [fmtDuration] prints what the timer's [fmt] prints for the
    whole seconds of the span, with the field 00 for the hours in front
    when the span is shorter than one hour. *)
Theorem X12_fmtDuration_agrees_with_fmt ms :
  0 <= ms <= JS.MAX_SAFE_INTEGER ->
  Utils.fmtDuration ms
  = Some (if ms / 1000 <? 3600 then ("00:" ++ fmt (ms / 1000))%string
          else fmt (ms / 1000)).
Proof.
  intros Hms.
  assert (Hsafe : JS.isSafeInteger ms = true).
  { unfold JS.isSafeInteger. apply andb_true_iff.
    assert (0 <= JS.MAX_SAFE_INTEGER) by (vm_compute; discriminate).
    split; apply Z.leb_le; lia. }
  assert (Hsec : 0 <= ms / 1000) by (apply Z.div_pos; lia).
  destruct (fmt_parts (ms / 1000) Hsec) as (Sa & Ma & Ga & Ea).
  assert (Hm : Z.rem (ms / 1000) 3600 / 60 = Z.rem (ms / 1000 / 60) 60).
  { rewrite !Z.rem_mod_nonneg in * by (try apply Z.div_pos; lia).
    pose proof (Z.div_mod (ms / 1000) 3600 ltac:(lia)) as D.
    pose proof (Z.mod_pos_bound (ms / 1000) 3600 ltac:(lia)) as B.
    symmetry. apply Z.div_unique with (r := (ms / 1000) mod 60); lia. }
  unfold Utils.fmtDuration, fmt. rewrite Hsafe. cbv zeta.
  cbn [map String.concat]. rewrite Hm. f_equal.
  destruct (ms / 1000 <? 3600) eqn:L.
  - apply Z.ltb_lt in L.
    rewrite (Z.div_small (ms / 1000) 3600) by lia. reflexivity.
  - apply Z.ltb_ge in L.
    assert (H1 : 0 < ms / 1000 / 3600) by (apply Z.div_str_pos; lia).
    apply Z.ltb_lt in H1. rewrite H1. now rewrite append_assoc.
Qed.

Lemma X12_witness :
  0 <= 1500999 <= JS.MAX_SAFE_INTEGER
  /\ Utils.fmtDuration 1500999 = Some "00:25:00"%string
  /\ fmt 1500 = "25:00"%string.
Proof.
  assert (H : 0 <= 1500999 <= JS.MAX_SAFE_INTEGER)
    by (split; vm_compute; discriminate).
  pose proof (X12_fmtDuration_agrees_with_fmt 1500999 H) as E.
  split; [exact H |]. split; [rewrite E |]; vm_compute; reflexivity.
Defined.

(** ** What an auto-started focus phase records *)

Lemma auth_step s u :
  mounted s = true -> step s (Auth u) = setAuthUser u s.
Proof. intros Hm. now apply step_quiet. Qed.

(** X13. The row of an auto-started focus phase covers the break before
    it. A visitor who is not signed in lets a focus phase run out, signs in
    during the break that is auto-started, and lets that break and the
    focus phase auto-started after it run out: the row sent at the end of
    that focus phase begins at the moment the break was started, so it
    spans the break's duration, one second and the focus duration. *)
Theorem X13_autostarted_focus_row_spans_break cfg n s u :
  ValidConfig cfg -> Started cfg focus n s -> authUser s = None ->
  phase (autostart (expire s)) = breakAfter cfg (n + 1)
  /\ phase (autostart (expire (step (autostart (expire s)) (Auth (Some u)))))
     = focus
  /\ inserted
       (expire (autostart (expire (step (autostart (expire s)) (Auth (Some u))))))
     = mkRow u
         (JS.toISOString (clock (autostart (expire s))))
         (JS.toISOString
            (clock (autostart (expire s))
             + 1000 * (duration cfg (breakAfter cfg (n + 1)) + 1
                       + workMin cfg * 60)))
       :: inserted s.
Proof.
  intros Hv Hs Hu.
  destruct (round cfg Hv focus n s ltac:(discriminate) Hs (fun _ => Hu))
    as (_ & Hb & C1 & _ & I1 & F1).
  cbn [nextPhase nextCount] in Hb.
  remember (autostart (expire s)) as b eqn:Eb.
  assert (Hbk : breakAfter cfg (n + 1) <> idle)
    by (destruct (breakAfter_cases cfg (n + 1)) as [-> | ->]; discriminate).
  assert (Hbf : breakAfter cfg (n + 1) <> focus)
    by (destruct (breakAfter_cases cfg (n + 1)) as [-> | ->]; discriminate).
  pose proof (st_mounted _ _ _ _ Hb) as Mb.
  rewrite (auth_step b (Some u) Mb).
  assert (Hb' : Started cfg (breakAfter cfg (n + 1)) (n + 1) (setAuthUser (Some u) b))
    by (destruct Hb; now split).
  destruct (round cfg Hv _ _ _ Hbk Hb' ltac:(intros E; congruence))
    as (_ & Hf & C2 & U2 & I2 & F2).
  assert (Hnp : nextPhase cfg (breakAfter cfg (n + 1)) (n + 1) = focus)
    by (destruct (breakAfter_cases cfg (n + 1)) as [-> | ->]; reflexivity).
  rewrite Hnp in Hf.
  assert (F2' : focusStartRef (autostart (expire (setAuthUser (Some u) b)))
                = Some (clock b)).
  { rewrite F2. change (focusStartRef (setAuthUser (Some u) b)) with (focusStartRef b).
    rewrite F1, C1.
    destruct (breakAfter_cases cfg (n + 1)) as [-> | ->]; reflexivity. }
  remember (autostart (expire (setAuthUser (Some u) b))) as f eqn:Ef.
  destruct Hf as [Pf Rf _ Runf _ _ _ Mf].
  split; [exact (st_phase _ _ _ _ Hb) |]. split; [exact Pf |].
  rewrite expire_inserted;
    [| exact Runf | exact Mf | rewrite Rf; destruct Hv; cbn; lia].
  rewrite Pf, F2', U2, I2, C2, Rf.
  cbn [authUser inserted clock setAuthUser duration]. rewrite I1.
  do 2 f_equal. f_equal. lia.
Qed.

Lemma X13_witness :
  ValidConfig defaults /\ Started defaults focus 0 started
  /\ authUser started = None
  /\ inserted
       (expire (autostart (expire (step (autostart (expire started))
                                        (Auth (Some "u"%string))))))
     = [mkRow "u" "1970-01-01T00:25:01.000Z" "1970-01-01T00:55:02.000Z"].
Proof.
  assert (Hs : Started defaults focus 0 started) by (split; reflexivity).
  assert (Hu : authUser started = None) by reflexivity.
  destruct (X13_autostarted_focus_row_spans_break defaults 0 _ "u"
              ValidConfig_defaults Hs Hu) as (_ & _ & H).
  split; [exact ValidConfig_defaults |]. split; [exact Hs |]. split; [exact Hu |].
  rewrite H. vm_compute. reflexivity.
Defined.

(** X14. After a pause, only the time since the resume is recorded. When
    a paused focus phase is resumed by a signed-in user and left to run
    out, the row sent starts at the moment of the resume and spans exactly
    the seconds that were left on the clock face, whatever the focus
    duration and however long the phase ran before the pause. *)
Theorem X14_resumed_focus_row cfg s u :
  mounted s = true ->
  phase s = focus -> running s = false -> 1 <= remaining s ->
  authUser s = Some u ->
  inserted (expire (toggle cfg s))
  = mkRow u (JS.toISOString (clock s))
            (JS.toISOString (clock s + 1000 * remaining s))
    :: inserted s.
Proof.
  intros Hm Hp Hr Hrem Hu. rewrite (toggle_paused cfg s Hr), Hp.
  rewrite expire_inserted; [| reflexivity | exact Hm | exact Hrem].
  cbn [phase focusStartRef authUser clock remaining inserted
       setRunning setFocusStart].
  now rewrite Hp, Hu.
Qed.

Lemma X14_witness :
  phase (run (startedBy "u") (seconds 600 ++ [Space; Elapse 120000])) = focus
  /\ inserted (expire (toggle defaults
       (run (startedBy "u") (seconds 600 ++ [Space; Elapse 120000]))))
     = [mkRow "u" "2025-01-01T12:12:00.000Z" "2025-01-01T12:27:00.000Z"].
Proof.
  assert (Hp : phase (run (startedBy "u")
                        (seconds 600 ++ [Space; Elapse 120000])) = focus)
    by (vm_compute; reflexivity).
  split; [exact Hp |].
  rewrite (X14_resumed_focus_row defaults _ "u");
    [vm_compute; reflexivity | vm_compute; reflexivity | exact Hp
     | vm_compute; reflexivity | vm_compute; discriminate
     | vm_compute; reflexivity].
Defined.

(** ** Cycle after cycle *)

(** X15. For a visitor who is not signed in, the cycle repeats for as
    long as the timer is not reset and the inputs are left alone. With a
    valid configuration of cycle length N, from a focus phase that begins
    with a multiple q*N of intervals completed, phases left to run out
    follow the order Focus, ShortBreak, ..., Focus, LongBreak of one full
    cycle, each beginning with its configured duration; after the long
    break the next focus phase is started with (q+1)*N intervals completed
    and still no user, where the same holds again. *)
Theorem X15_cycle_repeats cfg q s :
  ValidConfig cfg -> 0 <= q ->
  Started cfg focus (q * intervalsBeforeLong cfg) s -> authUser s = None ->
  map shown (s :: expiries (S (2 * Z.to_nat (intervalsBeforeLong cfg - 1))) s)
  = concat (repeat [(focus, workMin cfg * 60); (short, shortMin cfg * 60)]
                   (Z.to_nat (intervalsBeforeLong cfg - 1)))
    ++ [(focus, workMin cfg * 60); (long, longMin cfg * 60)]
  /\ count_occ Phase_eq_dec
       (map phase (s :: expiries (S (2 * Z.to_nat (intervalsBeforeLong cfg - 1))) s))
       long = 1%nat
  /\ count_occ Phase_eq_dec
       (map phase (s :: expiries (S (2 * Z.to_nat (intervalsBeforeLong cfg - 1))) s))
       short = Z.to_nat (intervalsBeforeLong cfg - 1)
  /\ Started cfg focus ((q + 1) * intervalsBeforeLong cfg)
       (after (2 * Z.to_nat (intervalsBeforeLong cfg)) s)
  /\ authUser (after (2 * Z.to_nat (intervalsBeforeLong cfg)) s) = None.
Proof.
  intros Hv Hq Hs Hu.
  assert (HN : 1 <= intervalsBeforeLong cfg) by (destruct Hv; assumption).
  destruct (cycle_tail_any cfg Hv q (Z.to_nat (intervalsBeforeLong cfg - 1)) s Hq)
    as (H1 & H2 & H3); [lia | | exact Hu |].
  { replace (intervalsBeforeLong cfg - 1
             - Z.of_nat (Z.to_nat (intervalsBeforeLong cfg - 1))) with 0 by lia.
    now rewrite Z.add_0_r. }
  set (n := Z.to_nat (intervalsBeforeLong cfg - 1)) in *.
  assert (Hshown : map shown (s :: expiries (S (2 * n)) s)
    = concat (repeat [(focus, workMin cfg * 60); (short, shortMin cfg * 60)] n)
      ++ [(focus, workMin cfg * 60); (long, longMin cfg * 60)]).
  { cbn [map]. rewrite H1.
    replace (shown s) with (focus, workMin cfg * 60).
    - apply alternate_shift.
    - destruct Hs as [P R _ _ _ _ _ _]. unfold shown. now rewrite P, R. }
  assert (Hphases : map phase (s :: expiries (S (2 * n)) s)
                    = map fst (map shown (s :: expiries (S (2 * n)) s)))
    by (rewrite map_map; reflexivity).
  split; [exact Hshown |].
  rewrite Hphases, Hshown, !map_app, !count_occ_app.
  split; [| split; [| split]].
  - rewrite count_occ_alternate_other by discriminate. reflexivity.
  - rewrite count_occ_alternate by discriminate. cbn. lia.
  - replace (2 * Z.to_nat (intervalsBeforeLong cfg))%nat
      with (S (S (2 * n))) by lia.
    exact H2.
  - replace (2 * Z.to_nat (intervalsBeforeLong cfg))%nat
      with (S (S (2 * n))) by lia.
    exact H3.
Qed.

Lemma X15_witness :
  ValidConfig defaults /\ 0 <= 0
  /\ Started defaults focus (0 * intervalsBeforeLong defaults) started
  /\ authUser started = None
  /\ map shown (started :: expiries 7 started)
     = [(focus, 1500); (short, 300); (focus, 1500); (short, 300);
        (focus, 1500); (short, 300); (focus, 1500); (long, 900)]
  /\ shown (after 8 started) = (focus, 1500)
  /\ intervalCount (after 8 started) = 4.
Proof.
  assert (Hq : 0 <= 0) by discriminate.
  assert (Hs : Started defaults focus (0 * intervalsBeforeLong defaults) started)
    by (split; reflexivity).
  assert (Hu : authUser started = None) by reflexivity.
  destruct (X15_cycle_repeats defaults 0 started ValidConfig_defaults Hq Hs Hu)
    as (H1 & _ & _ & [P R C _ _ _ _ _] & _).
  split; [exact ValidConfig_defaults |]. split; [exact Hq |]. split; [exact Hs |].
  split; [exact Hu |]. split; [exact H1 |].
  split; [exact (f_equal2 pair P R) | exact C].
Defined.

(** ** The page while the inputs are left alone *)

(** A timer whose inputs hold [cfg], none of them 0, is what the page
    becomes when the four values are entered after mounting and the Start
    and Reset buttons are pressed. *)
Lemma configured_from_init w sh l n t0 u rows :
  w <> 0 -> sh <> 0 -> l <> 0 -> n <> 0 ->
  run (init t0 u rows)
      [Edit focusInput (Some w); Edit shortInput (Some sh);
       Edit longInput (Some l); Edit intervalsInput (Some n); Toggle; Reset]
  = configured (mkConfig w sh l n) t0 u rows.
Proof.
  intros Hw Hsh Hl Hn.
  assert (O : forall z, z <> 0 -> orOne (Some z) = z)
    by (intros [|p|p] H; [congruence | reflexivity | reflexivity]).
  cbn [run fold_left]. rewrite !edit_step by reflexivity.
  cbn [edit]. rewrite !O by assumption.
  match goal with
  | |- step (step ?x Toggle) Reset = _ =>
      rewrite (start_idle x Toggle eq_refl eq_refl eq_refl (or_introl eq_refl))
  end.
  rewrite step_renewed; [reflexivity | reflexivity | reflexivity |].
  left. discriminate.
Qed.



(** X17. The interval counter. From a state the page can be in, no
    sequence of events without a reset lowers the counter; the end of a
    focus phase, by expiry or by skipping, raises it by exactly 1 when the
    page stays mounted and leaves it as it was when the page is lost; and a
    step that takes it from a non-zero value to 0 is a reset. *)
Theorem X17_intervalCount_between_resets s :
  visited s ->
  (forall es, ~ In Reset es -> intervalCount s <= intervalCount (run s es))
  /\ (forall e, completesFocus s e = true ->
        intervalCount (step s e)
        = if mounted (step s e) then intervalCount s + 1 else intervalCount s)
  /\ (forall e, intervalCount s <> 0 -> intervalCount (step s e) = 0 ->
                e = Reset).
Proof.
  intros Hr. pose proof (Inv_visited s Hr) as HI. repeat split.
  - intros es Hes. now apply run_count_le.
  - intros e Hc. destruct (completesFocus_endsPhase s e Hc) as [He Hf].
    rewrite (endsPhase_mounted s e He).
    destruct (throws (historyCall e) s) eqn:Ht; cbn [negb].
    + now destruct (endsPhase_thrown s e He Ht) as (_ & _ & _ & -> & _).
    + destruct (endsPhase_cells s e He Ht) as (_ & _ & -> & _). now rewrite Hf.
  - intros e Hnz Hz. destruct e; try reflexivity;
      match goal with
      | |- ?e = Reset =>
          assert (Hle : intervalCount s <= intervalCount (step s e))
            by (apply step_count_le; [exact HI | discriminate])
      end;
      destruct HI; lia.
Qed.

Lemma X17_witness :
  visited started
  /\ intervalCount (step started (KeyN atRender)) = intervalCount started + 1
  /\ intervalCount (step (startedBy "u") (KeyN atRender))
     = intervalCount (startedBy "u").
Proof.
  assert (Hr : visited started) by (unfold started, init; repeat constructor).
  assert (Hr' : visited (startedBy "u"))
    by (unfold startedBy, init; repeat constructor).
  split; [exact Hr |]. split.
  - exact (proj1 (proj2 (X17_intervalCount_between_resets started Hr))
             (KeyN atRender) eq_refl).
  - exact (proj1 (proj2 (X17_intervalCount_between_resets (startedBy "u") Hr'))
             (KeyN atRender) eq_refl).
Defined.

(** X18. A focus phase that ends while no user is signed in. No row is
    sent and the history is left as it was; the page stays mounted, the
    counter goes up by one, the stored focus start is cleared, the next
    phase is the break that the handler's configuration gives the new
    count, and the seconds left are that break's duration (0 when the
    interval's function was called at dispatch and no focus start was
    stored). When React calls the function given to [setHistory] at
    dispatch, the cells end up the same with a user signed in. *)
Theorem X18_focus_end_without_user s e u :
  completesFocus s e = true -> getUserOrWarn s = None ->
  mounted (step s e) = true
  /\ inserted (step s e) = inserted s
  /\ history (step s e) = history s
  /\ intervalCount (step s e) = intervalCount s + 1
  /\ focusStartRef (step s e) = None
  /\ phase (step s e) = breakAfter (handlerConfig s e) (intervalCount s + 1)
  /\ remaining (step s e)
     = (if endsAtZero s e then 0
        else duration (handlerConfig s e) (phase (step s e)))
  /\ (historyCall e = atDispatch ->
      cells (step (setAuthUser (Some u) s) e) = cells (step s e)).
Proof.
  intros Hc Hu. destruct (completesFocus_endsPhase s e Hc) as [He Hf].
  assert (Ht : throws (historyCall e) s = false).
  { unfold throws. rewrite Hu, Hf.
    destruct (historyCall e), (focusStartRef s); reflexivity. }
  destruct (endsPhase_cells s e He Ht) as (H1 & H2 & H3 & H4 & H5 & H6).
  destruct (endsPhase_world s e He) as (_ & _ & _ & W4 & W5 & W6 & _).
  rewrite Hf in H1, H3, W5. rewrite Hf, Hu in W4, W6.
  split; [exact H6 |].
  split; [rewrite W4; now destruct (focusStartRef s) |].
  split; [rewrite W6; now destruct (historyCall e), (focusStartRef s) |].
  split; [exact H3 |]. split; [exact W5 |]. split; [exact H1 |].
  split; [exact H2 |].
  intros Hd.
  assert (He' : endsPhase (setAuthUser (Some u) s) e = true) by exact He.
  assert (Ht' : throws (historyCall e) (setAuthUser (Some u) s) = false)
    by (unfold throws; now rewrite Hd).
  destruct (endsPhase_cells _ e He' Ht') as (G1 & G2 & G3 & G4 & G5 & _).
  destruct (endsPhase_world _ e He') as (_ & _ & _ & _ & X5 & _).
  change (handlerConfig (setAuthUser (Some u) s) e) with (handlerConfig s e) in *.
  change (endsAtZero (setAuthUser (Some u) s) e) with (endsAtZero s e) in *.
  change (phase (setAuthUser (Some u) s)) with (phase s) in *.
  change (intervalCount (setAuthUser (Some u) s)) with (intervalCount s) in *.
  change (timeouts (setAuthUser (Some u) s)) with (timeouts s) in *.
  rewrite Hf in G1, G3, X5.
  unfold cells. rewrite G1, G3, G4, G5, X5, H1, H3, H4, H5, W5.
  rewrite G2, H2, G1, H1. reflexivity.
Qed.

Lemma X18_witness :
  completesFocus started (KeyN atRender) = true /\ getUserOrWarn started = None
  /\ inserted (step started (KeyN atRender)) = []
  /\ phase (step started (KeyN atRender)) = short
  /\ cells (step (setAuthUser (Some "u"%string) started) (KeyN atDispatch))
     = cells (step started (KeyN atDispatch)).
Proof.
  assert (He : completesFocus started (KeyN atRender) = true) by reflexivity.
  assert (He' : completesFocus started (KeyN atDispatch) = true) by reflexivity.
  assert (Hu : getUserOrWarn started = None) by reflexivity.
  destruct (X18_focus_end_without_user started (KeyN atRender) "u"%string He Hu)
    as (_ & Hi & _ & _ & _ & Hp & _).
  destruct (X18_focus_end_without_user started (KeyN atDispatch) "u"%string He' Hu)
    as (_ & _ & _ & _ & _ & _ & _ & Hcells).
  split; [exact He |]. split; [exact Hu |]. split; [exact Hi |].
  split; [exact Hp | exact (Hcells eq_refl)].
Defined.

(** ** Closures that are out of date *)

(** X19. A break that the interval ends with its function called at
    dispatch leaves the focus phase with 0 seconds. When such a break ends
    with no other auto-start pending, the timer stops in a focus phase with
    0 seconds left instead of the focus duration; the auto-start sets it
    running with these 0 seconds, and the next tick ends the focus phase,
    one second after it began. *)
Theorem X19_break_end_at_dispatch_leaves_no_focus_time s h r' h' :
  endsPhase s (Tick atDispatch h) = true ->
  phase s = short \/ phase s = long -> timeouts s = [] ->
  shown (step s (Tick atDispatch h)) = (focus, 0)
  /\ running (step s (Tick atDispatch h)) = false
  /\ shown (step (step s (Tick atDispatch h)) Timeout) = (focus, 0)
  /\ running (step (step s (Tick atDispatch h)) Timeout) = true
  /\ completesFocus (step (step s (Tick atDispatch h)) Timeout) (Tick r' h') = true.
Proof.
  intros He Hp Ht.
  assert (Hth : throws (historyCall (Tick atDispatch h)) s = false).
  { unfold throws. destruct Hp as [-> | ->]; now destruct h. }
  assert (Hz : endsAtZero s (Tick atDispatch h) = true).
  { unfold endsAtZero, awaits. now destruct Hp as [-> | ->]. }
  assert (Hne : phase s <> idle) by (destruct Hp as [-> | ->]; discriminate).
  destruct (endsPhase_cells s _ He Hth) as (H1 & H2 & _ & H4 & H5 & H6).
  rewrite Hz in H2. rewrite Ht in H5. change ([] ++ [phase s]) with [phase s] in H5.
  assert (H1' : phase (step s (Tick atDispatch h)) = focus)
    by (rewrite H1; destruct Hp as [-> | ->]; reflexivity).
  rewrite (timeout_step _ (phase s) [] H6 H4 H5 Hne).
  destruct (fireTimeout_cells (captured (step s (Tick atDispatch h))) _ (phase s) []
              H5 Hne) as (F1 & F2 & _ & F4 & _).
  destruct (fireTimeout_rest (captured (step s (Tick atDispatch h)))
              (step s (Tick atDispatch h)))
    as (_ & _ & _ & _ & _ & _ & _ & _ & _ & R10).
  unfold shown, completesFocus.
  cbn [phase remaining running mounted setCaptured].
  rewrite F1, F2, F4, R10, H1', H2, H4, H6. repeat split.
Qed.

Lemma X19_witness :
  endsPhase (run started (seconds 1500 ++ [Elapse 1000; Timeout] ++ seconds 299
                          ++ [Elapse 1000]))
            (Tick atDispatch atRender) = true
  /\ shown (run started (seconds 1500 ++ [Elapse 1000; Timeout] ++ seconds 299
                         ++ [Elapse 1000; Tick atDispatch atRender]))
     = (focus, 0)
  /\ shown (run started (seconds 1500 ++ [Elapse 1000; Timeout] ++ seconds 300))
     = (focus, 1500).
Proof.
  set (s := run started (seconds 1500 ++ [Elapse 1000; Timeout] ++ seconds 299
                         ++ [Elapse 1000])).
  assert (He : endsPhase s (Tick atDispatch atRender) = true)
    by (vm_compute; reflexivity).
  assert (Hp : phase s = short \/ phase s = long)
    by (left; vm_compute; reflexivity).
  assert (Ht : timeouts s = []) by (vm_compute; reflexivity).
  destruct (X19_break_end_at_dispatch_leaves_no_focus_time s atRender atRender
              atRender He Hp Ht) as (H1 & _).
  split; [exact He |]. split; [| vm_compute; reflexivity].
  rewrite <- H1. vm_compute. reflexivity.
Defined.

(** X20. The Start button and the Space key on the idle page. Both begin
    a cycle: the count is set to 0, the focus phase begins, the current
    time is stored as its start and the timer runs. The button puts the
    focus duration of the current inputs on the clock face, the key the
    focus duration of the inputs as they were when the timer last started,
    stopped or changed phase; after either, the key listener and the
    interval see the current inputs. *)
Theorem X20_start_button_and_space_key s e :
  mounted s = true -> phase s = idle -> running s = false ->
  e = Toggle \/ e = Space ->
  shown (step s e) = (focus, workMin (handlerConfig s e) * 60)
  /\ handlerConfig s Toggle = config s
  /\ handlerConfig s Space = captured s
  /\ running (step s e) = true
  /\ intervalCount (step s e) = 0
  /\ focusStartRef (step s e) = Some (clock s)
  /\ captured (step s e) = config s
  /\ config (step s e) = config s
  /\ inserted (step s e) = inserted s.
Proof.
  intros Hm Hp Hr He. rewrite (start_idle s e Hm Hp Hr He).
  destruct He as [-> | ->]; repeat split.
Qed.

Lemma X20_witness :
  mounted typedTen = true /\ phase typedTen = idle /\ running typedTen = false
  /\ shown (step typedTen Toggle) = (focus, 600)
  /\ shown (step typedTen Space) = (focus, 1500)
  /\ captured typedTen = defaults
  /\ captured (step typedTen Space) = config typedTen.
Proof.
  destruct (X20_start_button_and_space_key typedTen Toggle
              eq_refl eq_refl eq_refl (or_introl eq_refl)) as (H1 & _).
  destruct (X20_start_button_and_space_key typedTen Space
              eq_refl eq_refl eq_refl (or_intror eq_refl))
    as (H2 & _ & _ & _ & _ & _ & H3 & _).
  split; [reflexivity |]. split; [reflexivity |]. split; [reflexivity |].
  split; [exact H1 |]. split; [exact H2 |]. split; [reflexivity | exact H3].
Defined.
